(** * Holiday Manager: staff/team synchronisation and weekend schedules

    A shallow embedding of [app.py]: the tables held in the session state
    are lists of records, the form handlers are functions on the session
    state, and Python exceptions are explicit results. *)

From Stdlib Require Import ZArith Lia Ascii String.
From stdpp Require Import base list strings sorting.

Local Open Scope string_scope.
Local Open Scope list_scope.
Local Open Scope Z_scope.

(** ** Calendar dates

    A [datetime.date] is represented by its proleptic Gregorian ordinal
    ([date.toordinal()]: day 1 is 0001-01-01, a Monday). *)

Module Calendar.

Definition date := Z.

(** [date.weekday()]: Monday is 0, Saturday is 5, Sunday is 6. *)
Definition weekday (d : date) : Z := (d + 6) mod 7.

Definition SATURDAY : Z := 5.

Definition DI400Y : Z := 146097.
Definition DI100Y : Z := 36524.
Definition DI4Y : Z := 1461.

Definition DAYS_IN_MONTH (month : Z) : Z :=
  match month with
  | 1 => 31 | 2 => 28 | 3 => 31 | 4 => 30 | 5 => 31 | 6 => 30
  | 7 => 31 | 8 => 31 | 9 => 30 | 10 => 31 | 11 => 30 | 12 => 31
  | _ => -1
  end.

Definition DAYS_BEFORE_MONTH (month : Z) : Z :=
  match month with
  | 1 => 0 | 2 => 31 | 3 => 59 | 4 => 90 | 5 => 120 | 6 => 151
  | 7 => 181 | 8 => 212 | 9 => 243 | 10 => 273 | 11 => 304 | 12 => 334
  | _ => -1
  end.

Definition b2z (b : bool) : Z := if b then 1 else 0.

(** The standard library's ordinal to (year, month, day) conversion. *)
Definition ord2ymd (n : Z) : Z * Z * Z :=
  let n := n - 1 in
  let n400 := n / DI400Y in
  let n := n mod DI400Y in
  let year := n400 * 400 + 1 in
  let n100 := n / DI100Y in
  let n := n mod DI100Y in
  let n4 := n / DI4Y in
  let n := n mod DI4Y in
  let n1 := n / 365 in
  let n := n mod 365 in
  let year := year + n100 * 100 + n4 * 4 + n1 in
  if (n1 =? 4) || (n100 =? 4) then (year - 1, 12, 31)
  else
    let leapyear := (n1 =? 3) && (negb (n4 =? 24) || (n100 =? 3)) in
    let month := Z.shiftr (n + 50) 5 in
    let preceding := DAYS_BEFORE_MONTH month + b2z ((month >? 2) && leapyear) in
    if preceding >? n then
      let month := month - 1 in
      let preceding :=
        preceding - (DAYS_IN_MONTH month + b2z ((month =? 2) && leapyear)) in
      (year, month, n - preceding + 1)
    else (year, month, n - preceding + 1).

Definition digit (n : Z) : string :=
  String (ascii_of_nat (48 + Z.to_nat (n mod 10))) EmptyString.

Definition pad2 (n : Z) : string := digit (n / 10) +:+ digit n.

Definition pad4 (n : Z) : string :=
  digit (n / 1000) +:+ digit (n / 100) +:+ digit (n / 10) +:+ digit n.

(** [d.strftime("%Y-%m-%d")]. *)
Definition strftime_ymd (d : date) : string :=
  let '(y, m, dd) := ord2ymd d in
  pad4 y +:+ "-" +:+ pad2 m +:+ "-" +:+ pad2 dd.

(** The first Saturday on or after [d] (the roll-forward of the
    [W-SAT] offset). *)
Definition rollforward_sat (d : date) : date :=
  d + (SATURDAY - weekday d) mod 7.

(** [pd.date_range(start=start, end=end_, freq="W-SAT").to_list()]:
    starting at the rolled-forward start, one date every seven days
    while the date does not exceed [end_]. *)
Definition date_range_W_SAT (start end_ : date) : list date :=
  let first := rollforward_sat start in
  if first >? end_ then []
  else (fun k : nat => first + 7 * Z.of_nat k)
         <$> seq 0 (Z.to_nat ((end_ - first) / 7 + 1)).

(** Every day of [start, end_], in ascending order. *)
Definition days_between (start end_ : date) : list date :=
  (fun k : nat => start + Z.of_nat k) <$> seq 0 (Z.to_nat (end_ - start + 1)).

Definition is_saturday (d : date) : Prop := weekday d = SATURDAY.

(** The Saturdays [S] with [start <= S <= end_], in ascending order,
    found by checking every day of the range. *)
Definition saturdays_in (start end_ : date) : list date :=
  filter is_saturday (days_between start end_).

End Calendar.

Import Calendar.

(** ** Python string operations *)

Module PyStr.

Definition COMMA : ascii := ",".

(** [s.split(",")]: the pieces of [s] between commas; never empty. *)
Fixpoint split_comma (s : string) : list string :=
  match s with
  | EmptyString => [EmptyString]
  | String c rest =>
      if Ascii.eqb c COMMA then EmptyString :: split_comma rest
      else match split_comma rest with
           | [] => [String c EmptyString]
           | piece :: pieces => String c piece :: pieces
           end
  end.

(** [",".join(l)]. *)
Definition join_comma (l : list string) : string := String.concat "," l.

End PyStr.

Import PyStr.

(** ** Tables and session state *)

Record Staff := mkStaff {
  staff_ID : Z;
  staff_Name : string;
  staff_Phone : string;
  staff_Team : string
}.

Record Team := mkTeam {
  team_ID : Z;
  Team_Name : string;
  Location : string;
  Leader : string;
  Members : string
}.

Record Assignment := mkAssignment {
  Team_Member : string;
  Weekend_Date : string;
  Day : string
}.

Record Schedule := mkSchedule {
  sched_ID : Z;
  sched_Name : string;
  sched_Team : string;
  Team_Leader : string;
  Start_Date : string;
  End_Date : string;
  Assignments : list Assignment
}.
(* [Assignments] is the list of assignment records a cell holds once
   loaded; its JSON text in the CSV file is not part of this model. *)

(** [st.session_state]: the three tables. *)
Record Session := mkSession {
  staffs : list Staff;
  teams : list Team;
  schedules : list Schedule
}.

(** ** Consistency synchroniser: [update_team_members] *)

(** [teams_df.at[index, "Members"] = v] on one row. *)
Definition set_Members (v : string) (team : Team) : Team :=
  mkTeam (team_ID team) (Team_Name team) (Location team) (Leader team) v.

(** [staffs_df[staffs_df["Team"] == team_name]["Name"].tolist()] *)
Definition names_in_team (staffs_df : list Staff) (team_name : string) : list string :=
  staff_Name <$> filter (fun s => staff_Team s = team_name) staffs_df.

(** [teams_df.iterrows()]: the rows with their index labels. *)
Definition iterrows {A} (df : list A) : list (nat * A) := zip (seq 0 (length df)) df.

(** The body of the [for] loop, run over the remaining rows; the table
    is updated in place, one cell at a time. *)
Fixpoint update_rows (staffs_df : list Staff) (rows : list (nat * Team))
    (teams_df : list Team) : list Team :=
  match rows with
  | [] => teams_df
  | (index, team) :: rest =>
      let team_name := Team_Name team in
      let members := names_in_team staffs_df team_name in
      update_rows staffs_df rest (alter (set_Members (join_comma members)) index teams_df)
  end.

Definition update_team_members (staffs_df : list Staff) (teams_df : list Team) : list Team :=
  update_rows staffs_df (iterrows teams_df) teams_df.

(** ** Schedule generator *)

Inductive exn := IndexError | ZeroDivisionError.

(** What a form submission shows: [st.error], [st.success], or an
    uncaught exception. *)
Inductive Outcome :=
| st_error (msg : string)
| st_success (msg : string)
| raised (e : exn).

(** The [for i, saturday in enumerate(weekend_dates)] loop;
    [assignments] is the list appended to. *)
Fixpoint assign_loop (team_members : list string) (i : nat)
    (weekend_dates : list date) (assignments : list Assignment)
    : exn + list Assignment :=
  match weekend_dates with
  | [] => inr assignments
  | saturday :: rest =>
      let sunday := saturday + 1 in
      if decide (length team_members = 0%nat) then inl ZeroDivisionError
      else match team_members !! (i mod length team_members)%nat with
           | None => inl IndexError
           | Some staff_member =>
               assign_loop team_members (S i) rest
                 ((assignments
                     ++ [mkAssignment staff_member (strftime_ymd saturday) "Saturday"])
                    ++ [mkAssignment staff_member (strftime_ymd sunday) "Sunday"])
           end
  end.

(** Lines 179-186: the weekend dates of the range and their round-robin
    assignment. *)
Definition generate_assignments (team_members : list string)
    (start_date end_date : date) : exn + list Assignment :=
  let weekend_dates := date_range_W_SAT start_date end_date in
  assign_loop team_members 0 weekend_dates [].

(** [st.session_state["teams"][... == team].iloc[0]] *)
Definition select_team (teams_df : list Team) (team : string) : exn + Team :=
  match filter (fun t => Team_Name t = team) teams_df with
  | [] => inl IndexError
  | team_data :: _ => inr team_data
  end.

Definition add_schedule (s : Session) (new_schedule : Schedule) : Session :=
  mkSession (staffs s) (teams s) (schedules s ++ [new_schedule]).

(** The [create_schedule] form handler, on submit, with the schedule
    table as the lists of assignments the pages read from it. The save
    that follows (line 198) re-encodes the Assignments cells of the
    session's table in place; it is [save_data] below, and the handler
    with it is [create_schedule_and_save]. *)
Definition create_schedule (s : Session) (schedule_name team : string)
    (start_date end_date : date) : Session * Outcome :=
  if start_date >=? end_date then
    (s, st_error "End date must be after the start date.")
  else
    match select_team (teams s) team with
    | inl e => (s, raised e)
    | inr team_data =>
        let team_members := split_comma (Members team_data) in
        match generate_assignments team_members start_date end_date with
        | inl e => (s, raised e)
        | inr assignments =>
            let new_schedule :=
              mkSchedule (Z.of_nat (length (schedules s)) + 1) schedule_name team
                (Leader team_data) (strftime_ymd start_date) (strftime_ymd end_date)
                assignments in
            (add_schedule s new_schedule,
             st_success ("Schedule '" +:+ schedule_name +:+ "' created successfully!"))
        end
    end.

(** Every run of the script first synchronises the teams with the staffs
    (line 51), then dispatches to the page. *)
Definition sync_session (s : Session) : Session :=
  mkSession (staffs s) (update_team_members (staffs s) (teams s)) (schedules s).

Definition run_create_schedule (s : Session) (schedule_name team : string)
    (start_date end_date : date) : Session * Outcome :=
  create_schedule (sync_session s) schedule_name team start_date end_date.

(** ** Dashboard: the next upcoming holiday *)

Section Dashboard.

(** [pd.to_datetime] on a stored date string, as a point on the time
    line; [today] is a point on the same line. *)
Variable to_datetime : string -> Z.

Definition upcoming := (Z * string * string)%type.

Definition key (x : upcoming) : Z := x.1.1.

(** The inner loop over the assignments of one schedule. *)
Fixpoint scan_assignments (today : Z) (team : string)
    (assignments : list Assignment) (all_weekend_dates : list upcoming)
    : list upcoming :=
  match assignments with
  | [] => all_weekend_dates
  | assignment :: rest =>
      let weekend_date := to_datetime (Weekend_Date assignment) in
      if weekend_date >? today then
        scan_assignments today team rest
          (all_weekend_dates ++ [(weekend_date, Team_Member assignment, team)])
      else scan_assignments today team rest all_weekend_dates
  end.

(** The outer loop over the schedules. *)
Fixpoint scan_schedules (today : Z) (rows : list Schedule)
    (all_weekend_dates : list upcoming) : list upcoming :=
  match rows with
  | [] => all_weekend_dates
  | schedule :: rest =>
      scan_schedules today rest
        (scan_assignments today (sched_Team schedule) (Assignments schedule)
           all_weekend_dates)
  end.

(** [min(items, key=lambda x: x[0])] once the first item is taken as
    the running minimum: a later item replaces it only when its key is
    strictly smaller. *)
Fixpoint min_by_key (best : upcoming) (items : list upcoming) : upcoming :=
  match items with
  | [] => best
  | item :: rest =>
      if key item <? key best then min_by_key item rest else min_by_key best rest
  end.

Definition next_upcoming (schedules_df : list Schedule) (today : Z) : option upcoming :=
  match schedules_df with
  | [] => None
  | _ =>
      match scan_schedules today schedules_df [] with
      | [] => None
      | first :: rest => Some (min_by_key first rest)
      end
  end.

(** Every assignment of every schedule, in schedule order and then
    assignment order. *)
Definition all_assignments (schedules_df : list Schedule) : list upcoming :=
  schedule ← schedules_df;
  (fun a => (to_datetime (Weekend_Date a), Team_Member a, sched_Team schedule))
    <$> Assignments schedule.

End Dashboard.

(** ** Vocabulary of the specification *)

(** The two entries of one weekend: [(member, S, "Saturday")] then
    [(member, S + 1 day, "Sunday")]. *)
Definition weekend_pair (member : string) (saturday : date) : list Assignment :=
  [mkAssignment member (strftime_ymd saturday) "Saturday";
   mkAssignment member (strftime_ymd (saturday + 1)) "Sunday"].

(** The weekend pairs of [weekend_dates], the weekend at position [k]
    going to [members[(i + k) mod len(members)]]. *)
Fixpoint round_robin_from (members : list string) (i : nat)
    (weekend_dates : list date) : list Assignment :=
  match weekend_dates with
  | [] => []
  | saturday :: rest =>
      weekend_pair (default EmptyString (members !! (i mod length members)%nat)) saturday
        ++ round_robin_from members (S i) rest
  end.

(** The days covered by a list of Saturdays: each Saturday and the
    Sunday after it. *)
Definition weekend_days (saturdays : list date) : list date :=
  saturday ← saturdays; [saturday; saturday + 1].

(** The recomputed row of a team. *)
Definition synced_row (staffs_df : list Staff) (team : Team) : Team :=
  set_Members (join_comma (names_in_team staffs_df (Team_Name team))) team.

(** A submission is refused when an error message is shown and the
    schedule table is left as it was. *)
Definition refused (before : Session) (result : Session * Outcome) : Prop :=
  (exists msg, result.2 = st_error msg) /\ schedules result.1 = schedules before.

(** ** Sample data *)

Module Sample.

(** 2024-01-01 (a Monday) and 2024-01-15. *)
Definition jan_01 : date := 738886.
Definition jan_15 : date := 738900.

(** One team, nobody on it. *)
Definition lonely : Session :=
  mkSession [] [mkTeam 1 "Night" "Depot" "" ""] [].

Definition lonely_after : Session :=
  mkSession [] [mkTeam 1 "Night" "Depot" "" ""]
    [mkSchedule 1 "Jan" "Night" "" "2024-01-01" "2024-01-15"
       [mkAssignment "" "2024-01-06" "Saturday";
        mkAssignment "" "2024-01-07" "Sunday";
        mkAssignment "" "2024-01-13" "Saturday";
        mkAssignment "" "2024-01-14" "Sunday"]].

Definition crew : list Staff :=
  [mkStaff 1 "Alice" "555" "Day"; mkStaff 2 "Bob" "556" "Night";
   mkStaff 3 "Carol" "557" "Day"].

Definition stale_teams : list Team :=
  [mkTeam 1 "Day" "HQ" "Alice" ""; mkTeam 2 "Night" "Depot" "Bob" "Zed"].

Definition office : Session := mkSession crew stale_teams [].

(** Midnight of the four dates used below, in hours on the time line
    of the ordinals. *)
Definition midnight (s : string) : Z :=
  24 * (if String.eqb s "2024-01-06" then 738891
        else if String.eqb s "2024-01-07" then 738892
        else if String.eqb s "2024-01-13" then 738898
        else if String.eqb s "2024-01-14" then 738899
        else 0).

Definition day_rota : Schedule :=
  mkSchedule 1 "Jan" "Day" "Alice" "2024-01-01" "2024-01-15"
    [mkAssignment "Alice" "2024-01-06" "Saturday";
     mkAssignment "Alice" "2024-01-07" "Sunday";
     mkAssignment "Carol" "2024-01-13" "Saturday";
     mkAssignment "Carol" "2024-01-14" "Sunday"].

Definition night_rota : Schedule :=
  mkSchedule 2 "Jan nights" "Night" "Bob" "2024-01-10" "2024-01-15"
    [mkAssignment "Bob" "2024-01-13" "Saturday";
     mkAssignment "Bob" "2024-01-14" "Sunday"].

End Sample.

(** ** Staff and team forms *)

(** [phone.replace(",", "")] *)
Fixpoint remove_commas (s : string) : string :=
  match s with
  | EmptyString => EmptyString
  | String c rest =>
      if Ascii.eqb c COMMA then remove_commas rest else String c (remove_commas rest)
  end.

(** The [add_staff] form handler, on submit: the new row is appended,
    then the teams are synchronised with the new staff table. *)
Definition add_staff (s : Session) (name phone team : string) : Session * Outcome :=
  let phone := remove_commas phone in
  let new_id := Z.of_nat (length (staffs s)) + 1 in
  let new_staff := mkStaff new_id name phone team in
  let staffs_df := staffs s ++ [new_staff] in
  (mkSession staffs_df (update_team_members staffs_df (teams s)) (schedules s),
   st_success "Staff added successfully!").

(** The [add_team] form handler, on submit. *)
Definition add_team (s : Session) (team_name location leader : string)
    : Session * Outcome :=
  let new_id := Z.of_nat (length (teams s)) + 1 in
  (mkSession (staffs s)
     (teams s ++ [mkTeam new_id team_name location leader EmptyString])
     (schedules s),
   st_success "Team created successfully!").

(** ** The schedule table as stored in the session

    A cell of the Assignments column holds either the list of assignment
    records or a text ([str]). [json.dumps] and [json.loads] are
    parameters. *)

Inductive cell :=
| cell_list (items : list Assignment)
| cell_str (text : string).

Record StoredSchedule := mkStored {
  stored_ID : Z;
  stored_Name : string;
  stored_Team : string;
  stored_Team_Leader : string;
  stored_Start_Date : string;
  stored_End_Date : string;
  stored_Assignments : cell
}.

Definition set_Assignments (c : cell) (row : StoredSchedule) : StoredSchedule :=
  mkStored (stored_ID row) (stored_Name row) (stored_Team row)
    (stored_Team_Leader row) (stored_Start_Date row) (stored_End_Date row) c.

(** The row [pd.DataFrame([new_schedule])] of a freshly generated
    schedule: its Assignments cell is the list itself. *)
Definition fresh_row (new_schedule : Schedule) : StoredSchedule :=
  mkStored (sched_ID new_schedule) (sched_Name new_schedule) (sched_Team new_schedule)
    (Team_Leader new_schedule) (Start_Date new_schedule) (End_Date new_schedule)
    (cell_list (Assignments new_schedule)).

Section Persistence.

Variable json_dumps : cell -> string.
Variable json_loads : string -> cell.
Variable to_datetime : string -> Z.

(** [save_data] on the schedule table: the Assignments column of the
    table passed in is replaced by its JSON text, cell by cell, before
    the file is written; the table passed in is the one of the session. *)
Definition save_data (df : list StoredSchedule) : list StoredSchedule :=
  (fun row => set_Assignments (cell_str (json_dumps (stored_Assignments row))) row)
    <$> df.

(** Lines 197-198: the new row is concatenated to the session table,
    which is then saved. *)
Definition store_schedule (df : list StoredSchedule) (new_schedule : Schedule)
    : list StoredSchedule :=
  save_data (df ++ [fresh_row new_schedule]).

(** The session with the schedule table as stored. *)
Record StoredSession := mkStoredSession {
  st_staffs : list Staff;
  st_teams : list Team;
  st_schedules : list StoredSchedule
}.

(** The [create_schedule] form handler on the stored session, lines
    173-200: date check, team selection, generation, then the new row is
    appended and the table saved. *)
Definition create_schedule_and_save (s : StoredSession) (schedule_name team : string)
    (start_date end_date : date) : StoredSession * Outcome :=
  if start_date >=? end_date then
    (s, st_error "End date must be after the start date.")
  else
    match select_team (st_teams s) team with
    | inl e => (s, raised e)
    | inr team_data =>
        let team_members := split_comma (Members team_data) in
        match generate_assignments team_members start_date end_date with
        | inl e => (s, raised e)
        | inr assignments =>
            let new_schedule :=
              mkSchedule (Z.of_nat (length (st_schedules s)) + 1) schedule_name team
                (Leader team_data) (strftime_ymd start_date) (strftime_ymd end_date)
                assignments in
            (mkStoredSession (st_staffs s) (st_teams s)
               (store_schedule (st_schedules s) new_schedule),
             st_success ("Schedule '" +:+ schedule_name +:+ "' created successfully!"))
        end
    end.

(** Lines 71-75: a text cell is parsed, then the items that are
    dictionaries are kept; the items of a text are its characters, none
    of which is a dictionary. *)
Definition read_cell (c : cell) : list Assignment :=
  let assignments :=
    match c with
    | cell_str text => json_loads text
    | cell_list _ => c
    end in
  match assignments with
  | cell_list items => items
  | cell_str _ => []
  end.

Definition as_read (row : StoredSchedule) : Schedule :=
  mkSchedule (stored_ID row) (stored_Name row) (stored_Team row)
    (stored_Team_Leader row) (stored_Start_Date row) (stored_End_Date row)
    (read_cell (stored_Assignments row)).

(** The dashboard lookup on the stored table. *)
Definition stored_next_upcoming (df : list StoredSchedule) (today : Z) : option upcoming :=
  next_upcoming to_datetime (as_read <$> df) today.

End Persistence.

(** ** A JSON codec for the sample tables

    The text [json.dumps] gives for a cell whose texts are printable
    ASCII, and its inverse on a given finite set of cells. *)

Module Json.

Definition DQUOTE : ascii := ascii_of_nat 34.
Definition BACKSLASH : ascii := ascii_of_nat 92.

Fixpoint escape (s : string) : string :=
  match s with
  | EmptyString => EmptyString
  | String c rest =>
      if Ascii.eqb c DQUOTE || Ascii.eqb c BACKSLASH
      then String BACKSLASH (String c (escape rest))
      else String c (escape rest)
  end.

Definition quoted (s : string) : string :=
  String DQUOTE (escape s +:+ String DQUOTE EmptyString).

Definition dict_text (a : Assignment) : string :=
  "{" +:+ quoted "Team Member" +:+ ": " +:+ quoted (Team_Member a) +:+ ", "
      +:+ quoted "Weekend Date" +:+ ": " +:+ quoted (Weekend_Date a) +:+ ", "
      +:+ quoted "Day" +:+ ": " +:+ quoted (Day a) +:+ "}".

Definition dumps (c : cell) : string :=
  match c with
  | cell_list items => "[" +:+ String.concat ", " (dict_text <$> items) +:+ "]"
  | cell_str text => quoted text
  end.

Definition loads_among (known : list cell) (text : string) : cell :=
  match list_find (fun c => dumps c = text) known with
  | Some (_, c) => c
  | None => cell_list []
  end.

(** The cells of a session in which [Sample.day_rota] was created, then
    another schedule. *)
Definition day_cell : cell := cell_list (Assignments Sample.day_rota).
Definition night_cell : cell := cell_list (Assignments Sample.night_rota).

Definition loads : string -> cell :=
  loads_among [day_cell; night_cell; cell_str (dumps day_cell)].

End Json.

(** ** Further vocabulary *)

Fixpoint count_commas (s : string) : nat :=
  match s with
  | EmptyString => 0
  | String c rest => ((if Ascii.eqb c COMMA then 1 else 0) + count_commas rest)%nat
  end.

Definition comma_free (s : string) : Prop := count_commas s = 0%nat.

(** Every team row lists exactly the staff carrying its name. *)
Definition consistent (s : Session) : Prop :=
  Forall (fun team => Members team = join_comma (names_in_team (staffs s) (Team_Name team)))
    (teams s).

(** Row [i] (from 0) has ID [i + 1]. *)
Definition sequential (ids : list Z) : Prop :=
  forall (i : nat) (id : Z), ids !! i = Some id -> id = Z.of_nat i + 1.

Definition ids_sequential (s : Session) : Prop :=
  sequential (staff_ID <$> staffs s)
  /\ sequential (team_ID <$> teams s)
  /\ sequential (sched_ID <$> schedules s).

(** The number of weekends given to [member]. *)
Definition weekends_of (member : string) (assignments : list Assignment) : nat :=
  length (filter (fun a => Team_Member a = member /\ Day a = "Saturday") assignments).

(** The number of [p < n] with [p mod k = j], for [j < k]. *)
Definition below (k j n : nat) : nat := ((n + (k - 1 - j)) / k)%nat.

(** * Properties *)

(** ** Saturdays of a date range *)

Section SortedLists.

Lemma sorted_lt_seq_fmap (f : nat -> Z) (a n : nat) :
  (forall i j : nat, (i < j)%nat -> f i < f j) ->
  StronglySorted Z.lt (f <$> seq a n).
Proof.
  intros Hf. revert a. induction n as [|n IH]; intros a; simpl.
  - constructor.
  - constructor; [apply IH|].
    apply Forall_forall. intros x Hx.
    apply list_elem_of_fmap in Hx as (k & -> & Hk).
    apply elem_of_seq in Hk. apply Hf. lia.
Qed.

Lemma sorted_lt_filter (P : Z -> Prop) `{!forall x, Decision (P x)} (l : list Z) :
  StronglySorted Z.lt l -> StronglySorted Z.lt (filter P l).
Proof.
  induction 1 as [|x l Hl IH Hx].
  - constructor.
  - rewrite filter_cons. destruct (decide (P x)); [|exact IH].
    constructor; [exact IH|].
    apply Forall_forall. intros y Hy.
    apply list_elem_of_filter in Hy as [_ Hy].
    rewrite Forall_forall in Hx. auto.
Qed.

(** Two strictly increasing lists with the same elements are equal. *)
Lemma sorted_lt_ext (l1 l2 : list Z) :
  StronglySorted Z.lt l1 -> StronglySorted Z.lt l2 ->
  (forall x, x ∈ l1 <-> x ∈ l2) -> l1 = l2.
Proof.
  intros H1. revert l2. induction H1 as [|x l1 Hl1 IH Hx]; intros l2 H2 Hmem.
  - destruct l2 as [|y l2]; [reflexivity|].
    exfalso. eapply not_elem_of_nil, Hmem. left.
  - rewrite Forall_forall in Hx.
    inversion H2 as [|y l2' Hl2 Hy]; subst.
    + exfalso. eapply not_elem_of_nil, Hmem. left.
    + rewrite Forall_forall in Hy.
      assert (x = y) as <-.
      { assert (Hxin : x ∈ y :: l2') by (apply Hmem; left).
        assert (Hyin : y ∈ x :: l1) by (apply Hmem; left).
        apply elem_of_cons in Hxin as [?|Hxin]; [assumption|].
        apply elem_of_cons in Hyin as [?|Hyin]; [congruence|].
        apply Hy in Hxin. apply Hx in Hyin. lia. }
      f_equal. apply IH; [assumption|].
      intros z. split; intros Hz.
      * assert (Hz' : z ∈ x :: l2') by (apply Hmem; right; assumption).
        apply elem_of_cons in Hz' as [->|?]; [|assumption].
        apply Hx in Hz. lia.
      * assert (Hz' : z ∈ x :: l1) by (apply Hmem; right; assumption).
        apply elem_of_cons in Hz' as [->|?]; [|assumption].
        apply Hy in Hz. lia.
Qed.

End SortedLists.

Section Saturdays.

Lemma elem_of_days_between (start end_ d : date) :
  d ∈ days_between start end_ <-> start <= d <= end_.
Proof.
  unfold days_between. rewrite list_elem_of_fmap. split.
  - intros (k & -> & Hk). apply elem_of_seq in Hk. lia.
  - intros Hd. exists (Z.to_nat (d - start)). split; [lia|].
    apply elem_of_seq. lia.
Qed.

Lemma elem_of_saturdays_in (start end_ d : date) :
  d ∈ saturdays_in start end_ <-> start <= d <= end_ /\ weekday d = SATURDAY.
Proof.
  unfold saturdays_in. rewrite list_elem_of_filter, elem_of_days_between.
  unfold is_saturday. tauto.
Qed.

Lemma rollforward_sat_spec (d : date) :
  d <= rollforward_sat d < d + 7 /\ weekday (rollforward_sat d) = SATURDAY.
Proof.
  unfold rollforward_sat, weekday, SATURDAY.
  split; [|]; Z.div_mod_to_equations; lia.
Qed.

Lemma elem_of_date_range (start end_ d : date) :
  d ∈ date_range_W_SAT start end_ <-> start <= d <= end_ /\ weekday d = SATURDAY.
Proof.
  unfold date_range_W_SAT.
  destruct (rollforward_sat_spec start) as [Hr Hw].
  set (first := rollforward_sat start) in *.
  unfold weekday, SATURDAY in *.
  destruct (Z.gtb_spec first end_) as [Hgt|Hle].
  - split; [intros H; inversion H|].
    intros [Hd Hs]. exfalso. Z.div_mod_to_equations. lia.
  - rewrite list_elem_of_fmap. split.
    + intros (k & -> & Hk). apply elem_of_seq in Hk.
      assert (7 * Z.of_nat k <= end_ - first) by (Z.div_mod_to_equations; lia).
      split; [lia|]. Z.div_mod_to_equations. lia.
    + intros [Hd Hs].
      exists (Z.to_nat ((d - first) / 7)). split.
      * Z.div_mod_to_equations. lia.
      * apply elem_of_seq. Z.div_mod_to_equations. lia.
Qed.

(** The generated weekend dates are exactly the Saturdays of the range,
    in ascending order. *)
Lemma date_range_saturdays (start end_ : date) :
  date_range_W_SAT start end_ = saturdays_in start end_.
Proof.
  apply sorted_lt_ext.
  - unfold date_range_W_SAT. destruct (_ >? _); [constructor|].
    apply sorted_lt_seq_fmap. intros; lia.
  - unfold saturdays_in, days_between.
    apply sorted_lt_filter, sorted_lt_seq_fmap. intros; lia.
  - intros d. rewrite elem_of_date_range, elem_of_saturdays_in. reflexivity.
Qed.

Lemma saturdays_in_sorted (start end_ : date) :
  StronglySorted Z.lt (saturdays_in start end_).
Proof.
  unfold saturdays_in, days_between.
  apply sorted_lt_filter, sorted_lt_seq_fmap. intros; lia.
Qed.

End Saturdays.

(** ** The assignment loop *)

Section Generator.

Lemma assign_loop_round_robin (members : list string) (dates : list date) :
  members <> [] ->
  forall (i : nat) (acc : list Assignment),
    assign_loop members i dates acc = inr (acc ++ round_robin_from members i dates).
Proof.
  intros Hne. induction dates as [|saturday rest IH]; intros i acc; simpl.
  - by rewrite app_nil_r.
  - destruct (decide (length members = 0%nat)) as [Hlen|Hlen].
    { destruct members; [congruence|discriminate]. }
    destruct (lookup_lt_is_Some_2 members (i mod length members)%nat) as [m Hm].
    { apply Nat.mod_upper_bound. assumption. }
    rewrite Hm, IH. simpl. by rewrite <- !app_assoc.
Qed.

Lemma generate_assignments_round_robin (members : list string) (start end_ : date) :
  members <> [] ->
  generate_assignments members start end_
  = inr (round_robin_from members 0 (saturdays_in start end_)).
Proof.
  intros Hne. unfold generate_assignments.
  by rewrite assign_loop_round_robin, date_range_saturdays.
Qed.

Lemma length_round_robin_from (members : list string) (i : nat) (dates : list date) :
  length (round_robin_from members i dates) = (2 * length dates)%nat.
Proof.
  revert i. induction dates as [|saturday rest IH]; intros i; simpl; [done|].
  rewrite IH. lia.
Qed.

Lemma lookup_round_robin_from (members : list string) (dates : list date) :
  forall (i k : nat) (saturday : date),
    dates !! k = Some saturday ->
    let member := default EmptyString (members !! ((i + k) mod length members)%nat) in
    round_robin_from members i dates !! (2 * k)%nat
    = Some (mkAssignment member (strftime_ymd saturday) "Saturday")
    /\ round_robin_from members i dates !! (2 * k + 1)%nat
      = Some (mkAssignment member (strftime_ymd (saturday + 1)) "Sunday").
Proof.
  induction dates as [|d rest IH]; intros i k saturday Hk; [done|].
  destruct k as [|k]; simpl in Hk.
  - injection Hk as ->. rewrite Nat.add_0_r. by split.
  - specialize (IH (S i) k saturday Hk). simpl in IH.
    replace (i + S k)%nat with (S (i + k)) by lia.
    replace (2 * S k)%nat with (S (S (2 * k))) by lia.
    replace (S (S (2 * k)) + 1)%nat with (S (S (2 * k + 1))) by lia.
    exact IH.
Qed.

Lemma round_robin_from_members (members : list string) (dates : list date) (i : nat) :
  members <> [] ->
  Forall (fun a => Team_Member a ∈ members) (round_robin_from members i dates).
Proof.
  intros Hne. revert i. induction dates as [|d rest IH]; intros i; simpl; [constructor|].
  destruct (lookup_lt_is_Some_2 members (i mod length members)%nat) as [m Hm].
  { apply Nat.mod_upper_bound. by destruct members. }
  rewrite Hm. simpl. apply list_elem_of_lookup_2 in Hm.
  constructor; [assumption|]. constructor; [assumption|]. apply IH.
Qed.

End Generator.

(** ** The synchroniser as a map over the team rows *)

Section Synchronizer.

Variable staffs_df : list Staff.

Lemma update_rows_fmap (rest done : list Team) :
  update_rows staffs_df (zip (seq (length done) (length rest)) rest)
    ((synced_row staffs_df <$> done) ++ rest)
  = synced_row staffs_df <$> (done ++ rest).
Proof.
  revert done. induction rest as [|team rest IH]; intros done.
  - simpl. by rewrite !app_nil_r.
  - cbn [length seq zip zip_with update_rows].
    assert (Halter :
      alter (set_Members (join_comma (names_in_team staffs_df (Team_Name team))))
        (length done) ((synced_row staffs_df <$> done) ++ team :: rest)
      = (synced_row staffs_df <$> (done ++ [team])) ++ rest).
    { rewrite <- (Nat.add_0_r (length done)).
      rewrite <- (length_fmap (synced_row staffs_df) done).
      rewrite alter_app_r, fmap_app. simpl. by rewrite <- app_assoc. }
    rewrite Halter.
    specialize (IH (done ++ [team])).
    rewrite length_app in IH. simpl in IH.
    replace (length done + 1)%nat with (S (length done)) in IH by lia.
    rewrite IH. by rewrite <- app_assoc.
Qed.

Lemma update_team_members_fmap (teams_df : list Team) :
  update_team_members staffs_df teams_df = synced_row staffs_df <$> teams_df.
Proof.
  unfold update_team_members, iterrows.
  exact (update_rows_fmap teams_df []).
Qed.

Lemma synced_row_idemp (team : Team) :
  synced_row staffs_df (synced_row staffs_df team) = synced_row staffs_df team.
Proof. reflexivity. Qed.

Lemma update_team_members_twice (teams_df : list Team) :
  update_team_members staffs_df (update_team_members staffs_df teams_df)
  = update_team_members staffs_df teams_df.
Proof.
  rewrite !update_team_members_fmap, <- list_fmap_compose.
  apply list_fmap_ext. intros _ team _. apply synced_row_idemp.
Qed.

Lemma filter_synced (team_name : string) (teams_df : list Team) :
  filter (fun t => Team_Name t = team_name) (synced_row staffs_df <$> teams_df)
  = synced_row staffs_df <$> filter (fun t => Team_Name t = team_name) teams_df.
Proof.
  induction teams_df as [|t rest IH]; [done|].
  rewrite fmap_cons, !filter_cons. simpl.
  destruct (decide (Team_Name t = team_name)); by rewrite IH.
Qed.

Lemma select_team_synced (teams_df : list Team) (team : string) (row : Team) :
  select_team teams_df team = inr row ->
  select_team (update_team_members staffs_df teams_df) team
  = inr (synced_row staffs_df row).
Proof.
  unfold select_team. rewrite update_team_members_fmap, filter_synced.
  destruct (filter _ teams_df) as [|t rest]; [discriminate|].
  intros [= ->]. reflexivity.
Qed.

End Synchronizer.

Lemma sync_session_twice (s : Session) :
  sync_session (sync_session s) = sync_session s.
Proof.
  unfold sync_session. simpl. by rewrite update_team_members_twice.
Qed.

Lemma select_team_name (teams_df : list Team) (team : string) (row : Team) :
  select_team teams_df team = inr row -> Team_Name row = team.
Proof.
  unfold select_team. destruct (filter _ teams_df) as [|t rest] eqn:E; [discriminate|].
  intros [= ->].
  assert (Hin : row ∈ filter (fun t => Team_Name t = team) teams_df)
    by (rewrite E; left).
  by apply list_elem_of_filter in Hin as [? _].
Qed.

Lemma split_comma_nonempty (s : string) : split_comma s <> [].
Proof.
  destruct s as [|c rest]; simpl; [discriminate|].
  destruct (Ascii.eqb c COMMA); [discriminate|].
  destruct (split_comma rest); discriminate.
Qed.

(** A submission that passes the date check, for a team that exists. *)
Lemma create_schedule_success (s : Session) (schedule_name team : string)
    (start_date end_date : date) (team_data : Team) :
  start_date < end_date ->
  select_team (teams s) team = inr team_data ->
  create_schedule s schedule_name team start_date end_date
  = (add_schedule s
       (mkSchedule (Z.of_nat (length (schedules s)) + 1) schedule_name team
          (Leader team_data) (strftime_ymd start_date) (strftime_ymd end_date)
          (round_robin_from (split_comma (Members team_data)) 0
             (saturdays_in start_date end_date))),
     st_success ("Schedule '" +:+ schedule_name +:+ "' created successfully!")).
Proof.
  intros Hlt Hsel. unfold create_schedule.
  destruct (Z.geb_spec start_date end_date) as [Hge|_]; [lia|].
  rewrite Hsel.
  by rewrite (generate_assignments_round_robin _ _ _ (split_comma_nonempty _)).
Qed.

(** ** The dashboard scan and the minimum *)

Section DashboardFacts.

Variable to_datetime : string -> Z.

Lemma scan_assignments_filter (today : Z) (team : string)
    (assignments : list Assignment) (acc : list upcoming) :
  scan_assignments to_datetime today team assignments acc
  = acc ++ filter (fun x => today < key x)
             ((fun a => (to_datetime (Weekend_Date a), Team_Member a, team))
                <$> assignments).
Proof.
  revert acc. induction assignments as [|a rest IH]; intros acc; simpl.
  - by rewrite app_nil_r.
  - rewrite filter_cons. unfold key at 1. simpl.
    destruct (Z.gtb_spec (to_datetime (Weekend_Date a)) today) as [Hgt|Hle].
    + rewrite IH. destruct (decide _) as [_|Hn]; [|lia]. by rewrite <- app_assoc.
    + rewrite IH. destruct (decide _) as [Hy|_]; [lia|]. reflexivity.
Qed.

Lemma scan_schedules_filter (today : Z) (rows : list Schedule) (acc : list upcoming) :
  scan_schedules to_datetime today rows acc
  = acc ++ filter (fun x => today < key x) (all_assignments to_datetime rows).
Proof.
  revert acc. induction rows as [|schedule rest IH]; intros acc.
  - simpl. by rewrite app_nil_r.
  - cbn [scan_schedules]. rewrite IH, scan_assignments_filter.
    unfold all_assignments. rewrite bind_cons, filter_app.
    by rewrite <- app_assoc.
Qed.

(** The running minimum splits the scanned items: strictly larger keys
    before it, keys at least as large after it. *)
Lemma min_by_key_split (items : list upcoming) (best : upcoming) :
  exists pre post,
    best :: items = pre ++ min_by_key best items :: post
    /\ (forall y, y ∈ pre -> key (min_by_key best items) < key y)
    /\ (forall y, y ∈ post -> key (min_by_key best items) <= key y).
Proof.
  revert best. induction items as [|item rest IH]; intros best; simpl.
  - exists [], []. split; [reflexivity|]. split; intros y Hy; inversion Hy.
  - destruct (Z.ltb_spec (key item) (key best)) as [Hlt|Hge].
    + destruct (IH item) as (pre & post & Heq & Hpre & Hpost).
      remember (min_by_key item rest) as r eqn:Er. clear Er.
      assert (Hr : key r <= key item).
      { assert (Hin : item ∈ pre ++ r :: post) by (rewrite <- Heq; left).
        apply elem_of_app in Hin as [Hin|Hin]; [apply Hpre in Hin; lia|].
        apply elem_of_cons in Hin as [->|Hin]; [lia|]. by apply Hpost. }
      exists (best :: pre), post. split; [by rewrite Heq|]. split; [|assumption].
      intros y Hy. apply elem_of_cons in Hy as [->|Hy]; [lia|]. by apply Hpre.
    + destruct (IH best) as (pre & post & Heq & Hpre & Hpost).
      remember (min_by_key best rest) as r eqn:Er. clear Er.
      destruct pre as [|p pre]; simpl in Heq.
      * injection Heq as Hb Hrest. subst r rest. exists [], (item :: post).
        split; [reflexivity|]. split; [intros y Hy; inversion Hy|].
        intros y Hy. apply elem_of_cons in Hy as [->|Hy]; [lia|]. by apply Hpost.
      * injection Heq as Hb Hrest. subst p rest. exists (best :: item :: pre), post.
        split; [reflexivity|]. split; [|assumption].
        assert (Hbest : key r < key best) by (apply Hpre; left).
        intros y Hy. apply elem_of_cons in Hy as [->|Hy]; [assumption|].
        apply elem_of_cons in Hy as [->|Hy]; [lia|]. apply Hpre. by right.
Qed.

(** An occurrence in a filtered list comes from an occurrence in the
    list, with the filtered surroundings. *)
Lemma filter_split (P : upcoming -> Prop) `{!forall x, Decision (P x)}
    (l pre' post' : list upcoming) (x : upcoming) :
  filter P l = pre' ++ x :: post' ->
  exists pre post, l = pre ++ x :: post /\ filter P pre = pre' /\ filter P post = post'.
Proof.
  revert pre'. induction l as [|a l IH]; intros pre' Heq.
  - destruct pre'; discriminate.
  - rewrite filter_cons in Heq. destruct (decide (P a)) as [Ha|Ha].
    + destruct pre' as [|p pre']; simpl in Heq.
      * injection Heq as -> Hl. exists [], l. split; [reflexivity|].
        split; [reflexivity|assumption].
      * injection Heq as -> Hl. destruct (IH pre' Hl) as (pre & post & -> & Hpre & Hpost).
        exists (p :: pre), post. split; [reflexivity|]. split; [|assumption].
        by rewrite filter_cons_True, Hpre.
    + destruct (IH pre' Heq) as (pre & post & -> & Hpre & Hpost).
      exists (a :: pre), post. split; [reflexivity|]. split; [|assumption].
      by rewrite filter_cons_False.
Qed.

End DashboardFacts.

(** ** Weekends in chronological order *)

Section Weekends.

Lemma saturdays_in_Forall (start end_ : date) :
  Forall is_saturday (saturdays_in start end_).
Proof.
  apply Forall_forall. intros d Hd.
  by apply elem_of_saturdays_in in Hd as [_ Hd].
Qed.

Lemma weekend_days_sorted (saturdays : list date) :
  StronglySorted Z.lt saturdays -> Forall is_saturday saturdays ->
  StronglySorted Z.lt (weekend_days saturdays).
Proof.
  unfold weekend_days.
  induction 1 as [|x l Hl IH Hx]; intros Hsat; [constructor|].
  apply Forall_cons in Hsat as [Hxs Hls].
  rewrite bind_cons. simpl.
  assert (Hlater : Forall (Z.lt (x + 1)) (l ≫= fun saturday => [saturday; saturday + 1])).
  { apply Forall_bind. rewrite Forall_forall in Hx, Hls.
    apply Forall_forall. intros y Hy.
    specialize (Hx y Hy). specialize (Hls y Hy).
    unfold is_saturday, weekday, SATURDAY in *.
    repeat constructor; Z.div_mod_to_equations; lia. }
  constructor; [constructor; [by apply IH|assumption]|].
  constructor; [lia|].
  eapply Forall_impl; [exact Hlater|]. intros; simpl in *; lia.
Qed.

Lemma round_robin_from_dates (members : list string) (dates : list date) (i : nat) :
  Weekend_Date <$> round_robin_from members i dates
  = strftime_ymd <$> weekend_days dates.
Proof.
  unfold weekend_days. revert i.
  induction dates as [|d rest IH]; intros i; [done|].
  rewrite bind_cons. simpl. by rewrite IH.
Qed.

Lemma round_robin_from_zip (members : list string) (dates : list date) (i : nat) :
  exists ms : list string,
    length ms = length dates
    /\ round_robin_from members i dates
       = (zip ms dates ≫= fun p => weekend_pair p.1 p.2).
Proof.
  revert i. induction dates as [|d rest IH]; intros i.
  - by exists [].
  - destruct (IH (S i)) as (ms & Hlen & Heq).
    exists (default EmptyString (members !! (i mod length members)%nat) :: ms).
    split; [simpl; by rewrite Hlen|].
    cbn [round_robin_from zip zip_with]. rewrite bind_cons, Heq. reflexivity.
Qed.

End Weekends.

(** * Main results *)

(** C1: for a non-empty member list, the i-th Saturday (0-indexed,
    ascending) of [start_date, end_date] is assigned to
    [members[i mod len(members)]]; the Saturday entry sits at position
    [2 i], the Sunday entry at [2 i + 1], and both name that member. *)
Theorem round_robin_assignment (members : list string) (start_date end_date : date) :
  members <> [] ->
  exists assignments,
    generate_assignments members start_date end_date = inr assignments
    /\ forall (i : nat) (saturday : date),
        saturdays_in start_date end_date !! i = Some saturday ->
        exists member,
          members !! (i mod length members)%nat = Some member
          /\ assignments !! (2 * i)%nat
             = Some (mkAssignment member (strftime_ymd saturday) "Saturday")
          /\ assignments !! (2 * i + 1)%nat
             = Some (mkAssignment member (strftime_ymd (saturday + 1)) "Sunday").
Proof.
  intros Hne. eexists. split; [by apply generate_assignments_round_robin|].
  intros i saturday Hi.
  destruct (lookup_lt_is_Some_2 members (i mod length members)%nat) as [m Hm].
  { apply Nat.mod_upper_bound. by destruct members. }
  exists m. split; [assumption|].
  pose proof (lookup_round_robin_from members _ 0%nat i saturday Hi) as H.
  simpl in H. by rewrite Hm in H.
Qed.

Lemma round_robin_assignment_witness :
  ["Alice"; "Bob"] <> []
  /\ exists assignments,
      generate_assignments ["Alice"; "Bob"] Sample.jan_01 Sample.jan_15 = inr assignments
      /\ forall (i : nat) (saturday : date),
          saturdays_in Sample.jan_01 Sample.jan_15 !! i = Some saturday ->
          exists member,
            ["Alice"; "Bob"] !! (i mod 2)%nat = Some member
            /\ assignments !! (2 * i)%nat
               = Some (mkAssignment member (strftime_ymd saturday) "Saturday")
            /\ assignments !! (2 * i + 1)%nat
               = Some (mkAssignment member (strftime_ymd (saturday + 1)) "Sunday").
Proof.
  split; [discriminate|].
  apply (round_robin_assignment ["Alice"; "Bob"] Sample.jan_01 Sample.jan_15).
  discriminate.
Defined.

(** C2: with [start_date < end_date] and a non-empty member list, the
    generated Assignments have length twice the number of Saturdays of
    [start_date, end_date]. *)
Theorem assignments_length (members : list string) (start_date end_date : date) :
  start_date < end_date ->
  members <> [] ->
  exists assignments,
    generate_assignments members start_date end_date = inr assignments
    /\ length assignments = (2 * length (saturdays_in start_date end_date))%nat.
Proof.
  intros _ Hne. eexists. split; [by apply generate_assignments_round_robin|].
  apply length_round_robin_from.
Qed.

Lemma assignments_length_witness :
  Sample.jan_01 < Sample.jan_15
  /\ ["Alice"; "Bob"] <> []
  /\ exists assignments,
      generate_assignments ["Alice"; "Bob"] Sample.jan_01 Sample.jan_15 = inr assignments
      /\ length assignments = (2 * length (saturdays_in Sample.jan_01 Sample.jan_15))%nat.
Proof.
  split; [reflexivity|]. split; [discriminate|].
  apply (assignments_length ["Alice"; "Bob"] Sample.jan_01 Sample.jan_15);
    [reflexivity|discriminate].
Defined.

(** C3, as the code has it: a team with an empty roster has the empty
    string as its Members, which splits into the one-element list
    [[""]]; a submission with [start_date < end_date] is not refused: a
    schedule is added in which every weekend of the range goes to the
    empty name. *)
Theorem empty_roster_generates (s : Session) (schedule_name team : string)
    (start_date end_date : date) (row : Team) :
  select_team (teams s) team = inr row ->
  names_in_team (staffs s) team = [] ->
  start_date < end_date ->
  exists new_schedule,
    run_create_schedule s schedule_name team start_date end_date
    = (add_schedule (sync_session s) new_schedule,
       st_success ("Schedule '" +:+ schedule_name +:+ "' created successfully!"))
    /\ length (Assignments new_schedule)
       = (2 * length (saturdays_in start_date end_date))%nat
    /\ Forall (fun a => Team_Member a = EmptyString) (Assignments new_schedule).
Proof.
  intros Hsel Hroster Hlt. unfold run_create_schedule.
  pose proof (select_team_name _ _ _ Hsel) as Hname.
  pose proof (select_team_synced (staffs s) _ _ _ Hsel) as Hsync.
  eexists. split; [apply create_schedule_success; [assumption|exact Hsync]|].
  cbn [Assignments synced_row set_Members Members].
  rewrite Hname, Hroster. cbn [join_comma String.concat split_comma].
  split; [apply length_round_robin_from|].
  eapply Forall_impl; [apply round_robin_from_members; discriminate|].
  intros a Ha. by apply list_elem_of_singleton in Ha.
Qed.

Lemma empty_roster_generates_witness :
  select_team (teams Sample.lonely) "Night" = inr (mkTeam 1 "Night" "Depot" "" "")
  /\ names_in_team (staffs Sample.lonely) "Night" = []
  /\ Sample.jan_01 < Sample.jan_15
  /\ exists new_schedule,
      run_create_schedule Sample.lonely "Jan" "Night" Sample.jan_01 Sample.jan_15
      = (add_schedule (sync_session Sample.lonely) new_schedule,
         st_success ("Schedule '" +:+ "Jan" +:+ "' created successfully!"))
      /\ length (Assignments new_schedule)
         = (2 * length (saturdays_in Sample.jan_01 Sample.jan_15))%nat
      /\ Forall (fun a => Team_Member a = EmptyString) (Assignments new_schedule).
Proof.
  split; [reflexivity|]. split; [reflexivity|]. split; [reflexivity|].
  apply (empty_roster_generates Sample.lonely "Jan" "Night" Sample.jan_01 Sample.jan_15
           (mkTeam 1 "Night" "Depot" "" "")); reflexivity.
Defined.

(** C3, as stated, fails: the team "Night" has no member, yet the
    submission succeeds and adds a schedule whose four entries name the
    empty string. *)
Lemma empty_roster_not_refused :
  names_in_team (staffs Sample.lonely) "Night" = []
  /\ run_create_schedule Sample.lonely "Jan" "Night" Sample.jan_01 Sample.jan_15
     = (Sample.lonely_after, st_success "Schedule 'Jan' created successfully!")
  /\ ~ refused Sample.lonely
         (run_create_schedule Sample.lonely "Jan" "Night" Sample.jan_01 Sample.jan_15).
Proof.
  assert (Hrun :
    run_create_schedule Sample.lonely "Jan" "Night" Sample.jan_01 Sample.jan_15
    = (Sample.lonely_after, st_success "Schedule 'Jan' created successfully!"))
    by (vm_compute; reflexivity).
  split; [reflexivity|]. split; [exact Hrun|].
  rewrite Hrun. intros [[msg Hmsg] _]. discriminate Hmsg.
Qed.

(** C4: a submission with [start_date >= end_date] is answered with the
    error message of the date check, whatever the team and its roster,
    and the session state (staff, team and schedule tables) is returned
    as it was; this holds of the form handler, and of a whole run of the
    script on a session as the previous run left it. *)
Theorem validation_rejects (s : Session) (schedule_name team : string)
    (start_date end_date : date) :
  start_date >= end_date ->
  create_schedule s schedule_name team start_date end_date
  = (s, st_error "End date must be after the start date.")
  /\ run_create_schedule (sync_session s) schedule_name team start_date end_date
     = (sync_session s, st_error "End date must be after the start date.").
Proof.
  intros Hge. unfold run_create_schedule, create_schedule.
  rewrite sync_session_twice.
  destruct (Z.geb_spec start_date end_date) as [_|Hlt]; [by split|lia].
Qed.

Lemma validation_rejects_witness :
  Sample.jan_15 >= Sample.jan_01
  /\ create_schedule Sample.office "Jan" "Day" Sample.jan_15 Sample.jan_01
     = (Sample.office, st_error "End date must be after the start date.")
  /\ run_create_schedule (sync_session Sample.office) "Jan" "Day"
       Sample.jan_15 Sample.jan_01
     = (sync_session Sample.office, st_error "End date must be after the start date.").
Proof.
  split; [discriminate|].
  apply (validation_rejects Sample.office "Jan" "Day" Sample.jan_15 Sample.jan_01).
  discriminate.
Defined.

(** C5: [update_team_members] returns the team rows in their order,
    each with its Members replaced by the comma-joined list of the Names
    of the staff rows whose Team is that row's Team Name, in staff-table
    order; hence every row of the result lists exactly those staff. *)
Theorem synced_members (staffs_df : list Staff) (teams_df : list Team) :
  Forall2
    (fun team team' =>
       team'
       = set_Members
           (join_comma
              (staff_Name <$> filter (fun s => staff_Team s = Team_Name team) staffs_df))
           team)
    teams_df (update_team_members staffs_df teams_df)
  /\ Forall
       (fun team =>
          Members team
          = join_comma
              (staff_Name <$> filter (fun s => staff_Team s = Team_Name team) staffs_df))
       (update_team_members staffs_df teams_df).
Proof.
  rewrite update_team_members_fmap. split.
  - apply Forall2_fmap_r, Forall_Forall2_diag, Forall_forall.
    intros team _. reflexivity.
  - apply Forall_fmap, Forall_forall.
    intros team _. reflexivity.
Qed.

(** C6: running the synchroniser on its own result changes nothing. *)
Theorem sync_idempotent (staffs_df : list Staff) (teams_df : list Team) :
  update_team_members staffs_df (update_team_members staffs_df teams_df)
  = update_team_members staffs_df teams_df.
Proof.
  rewrite (update_team_members_fmap staffs_df teams_df).
  rewrite update_team_members_fmap, <- list_fmap_compose.
  apply list_fmap_ext. intros i team Hi. apply synced_row_idemp.
Qed.

(** C10: the synchroniser keeps the number of team rows and, row by row
    and in order, their ID, Team Name, Location and Leader. *)
Theorem sync_frame (staffs_df : list Staff) (teams_df : list Team) :
  length (update_team_members staffs_df teams_df) = length teams_df
  /\ team_ID <$> update_team_members staffs_df teams_df = team_ID <$> teams_df
  /\ Team_Name <$> update_team_members staffs_df teams_df = Team_Name <$> teams_df
  /\ Location <$> update_team_members staffs_df teams_df = Location <$> teams_df
  /\ Leader <$> update_team_members staffs_df teams_df = Leader <$> teams_df.
Proof.
  rewrite update_team_members_fmap, length_fmap, <- !list_fmap_compose.
  repeat split.
Qed.

(** C7: two submissions for the same team name and dates, against
    sessions in which that team has the same Members, add schedules with
    identical Assignments, whatever else the sessions hold (staff, other
    teams, earlier schedules) and whatever the schedule names. *)
Theorem generation_deterministic (s1 s2 : Session) (name1 name2 team : string)
    (start_date end_date : date) (team1 team2 : Team) :
  select_team (teams s1) team = inr team1 ->
  select_team (teams s2) team = inr team2 ->
  Members team1 = Members team2 ->
  start_date < end_date ->
  exists schedule1 schedule2,
    create_schedule s1 name1 team start_date end_date
    = (add_schedule s1 schedule1,
       st_success ("Schedule '" +:+ name1 +:+ "' created successfully!"))
    /\ create_schedule s2 name2 team start_date end_date
       = (add_schedule s2 schedule2,
          st_success ("Schedule '" +:+ name2 +:+ "' created successfully!"))
    /\ Assignments schedule1 = Assignments schedule2.
Proof.
  intros Hsel1 Hsel2 Hmem Hlt.
  do 2 eexists. split; [by apply create_schedule_success|].
  split; [by apply create_schedule_success|].
  simpl. by rewrite Hmem.
Qed.

Lemma generation_deterministic_witness :
  select_team (teams Sample.lonely) "Night" = inr (mkTeam 1 "Night" "Depot" "" "")
  /\ select_team (teams Sample.lonely_after) "Night" = inr (mkTeam 1 "Night" "Depot" "" "")
  /\ Members (mkTeam 1 "Night" "Depot" "" "") = Members (mkTeam 1 "Night" "Depot" "" "")
  /\ Sample.jan_01 < Sample.jan_15
  /\ exists schedule1 schedule2,
      create_schedule Sample.lonely "Jan" "Night" Sample.jan_01 Sample.jan_15
      = (add_schedule Sample.lonely schedule1,
         st_success ("Schedule '" +:+ "Jan" +:+ "' created successfully!"))
      /\ create_schedule Sample.lonely_after "Again" "Night" Sample.jan_01 Sample.jan_15
         = (add_schedule Sample.lonely_after schedule2,
            st_success ("Schedule '" +:+ "Again" +:+ "' created successfully!"))
      /\ Assignments schedule1 = Assignments schedule2.
Proof.
  split; [reflexivity|]. split; [reflexivity|]. split; [reflexivity|].
  split; [reflexivity|].
  apply (generation_deterministic Sample.lonely Sample.lonely_after "Jan" "Again" "Night"
           Sample.jan_01 Sample.jan_15
           (mkTeam 1 "Night" "Depot" "" "") (mkTeam 1 "Night" "Depot" "" ""));
    reflexivity.
Defined.

(** C8: the lookup answers nothing exactly when no assignment of any
    schedule lies after [today] (in particular for an empty schedule
    table); otherwise it answers an entry [x] after [today] such that, in
    the order schedules then assignments, every later-than-today entry
    before [x] has a strictly greater date and every one after [x] a date
    at least as great: the minimum, first occurrence on ties. *)
Theorem next_upcoming_spec (to_datetime : string -> Z)
    (schedules_df : list Schedule) (today : Z) :
  match next_upcoming to_datetime schedules_df today with
  | None =>
      forall x, x ∈ all_assignments to_datetime schedules_df -> key x <= today
  | Some x =>
      today < key x
      /\ exists pre post,
          all_assignments to_datetime schedules_df = pre ++ x :: post
          /\ (forall y, y ∈ pre -> today < key y -> key x < key y)
          /\ (forall y, y ∈ post -> today < key y -> key x <= key y)
  end.
Proof.
  unfold next_upcoming.
  destruct schedules_df as [|schedule rows] eqn:Erows.
  { intros x Hx. inversion Hx. }
  rewrite <- Erows. clear Erows schedule rows.
  rewrite scan_schedules_filter, app_nil_l.
  destruct (filter _ _) as [|first rest] eqn:Efilter.
  - intros x Hx.
    destruct (Z.le_gt_cases (key x) today) as [Hle|Hgt]; [assumption|].
    exfalso. eapply filter_nil_not_elem_of; [exact Efilter| |exact Hx]. exact Hgt.
  - destruct (min_by_key_split rest first) as (pre' & post' & Heq & Hpre & Hpost).
    remember (min_by_key first rest) as x eqn:Ex. clear Ex.
    rewrite Heq in Efilter.
    assert (Hx : today < key x).
    { assert (Hin : x ∈ filter (fun y => today < key y)
                          (all_assignments to_datetime schedules_df)).
      { rewrite Efilter. apply elem_of_app. right. left. }
      by apply list_elem_of_filter in Hin as [? _]. }
    split; [assumption|].
    destruct (filter_split _ _ _ _ _ Efilter) as (pre & post & Hall & Hfpre & Hfpost).
    exists pre, post. split; [assumption|]. split.
    + intros y Hy Hfut. apply Hpre. rewrite <- Hfpre. by apply list_elem_of_filter.
    + intros y Hy Hfut. apply Hpost. rewrite <- Hfpost. by apply list_elem_of_filter.
Qed.

(** C9: for a non-empty member list, the Assignments are the weekend
    pairs of the Saturdays of the range taken in ascending order, each
    pair being [(member, S, "Saturday")] immediately followed by
    [(member, S + 1 day, "Sunday")]; the dates so emitted are strictly
    increasing. *)
Theorem weekend_order (members : list string) (start_date end_date : date) :
  members <> [] ->
  exists (assignments : list Assignment) (ms : list string),
    generate_assignments members start_date end_date = inr assignments
    /\ length ms = length (saturdays_in start_date end_date)
    /\ assignments
       = (zip ms (saturdays_in start_date end_date) ≫= fun p => weekend_pair p.1 p.2)
    /\ Weekend_Date <$> assignments
       = strftime_ymd <$> weekend_days (saturdays_in start_date end_date)
    /\ StronglySorted Z.lt (weekend_days (saturdays_in start_date end_date)).
Proof.
  intros Hne.
  destruct (round_robin_from_zip members (saturdays_in start_date end_date) 0)
    as (ms & Hlen & Hzip).
  exists (round_robin_from members 0 (saturdays_in start_date end_date)), ms.
  split; [by apply generate_assignments_round_robin|].
  split; [assumption|]. split; [assumption|].
  split; [apply round_robin_from_dates|].
  apply weekend_days_sorted; [apply saturdays_in_sorted|apply saturdays_in_Forall].
Qed.

Lemma weekend_order_witness :
  ["Alice"; "Bob"] <> []
  /\ exists (assignments : list Assignment) (ms : list string),
      generate_assignments ["Alice"; "Bob"] Sample.jan_01 Sample.jan_15 = inr assignments
      /\ length ms = length (saturdays_in Sample.jan_01 Sample.jan_15)
      /\ assignments
         = (zip ms (saturdays_in Sample.jan_01 Sample.jan_15)
              ≫= fun p => weekend_pair p.1 p.2)
      /\ Weekend_Date <$> assignments
         = strftime_ymd <$> weekend_days (saturdays_in Sample.jan_01 Sample.jan_15)
      /\ StronglySorted Z.lt (weekend_days (saturdays_in Sample.jan_01 Sample.jan_15)).
Proof.
  split; [discriminate|].
  apply (weekend_order ["Alice"; "Bob"] Sample.jan_01 Sample.jan_15).
  discriminate.
Defined.

(** ** Worked examples *)

Example spec_example :
  generate_assignments ["Alice"; "Bob"] Sample.jan_01 Sample.jan_15
  = inr [mkAssignment "Alice" "2024-01-06" "Saturday";
         mkAssignment "Alice" "2024-01-07" "Sunday";
         mkAssignment "Bob" "2024-01-13" "Saturday";
         mkAssignment "Bob" "2024-01-14" "Sunday"].
Proof. vm_compute. reflexivity. Qed.

Example empty_members_fault :
  generate_assignments [] Sample.jan_01 Sample.jan_15 = inl ZeroDivisionError.
Proof. vm_compute. reflexivity. Qed.

Example split_empty : split_comma "" = [""].
Proof. reflexivity. Qed.

Example split_names : split_comma "Alice,Carol" = ["Alice"; "Carol"].
Proof. vm_compute. reflexivity. Qed.

Example sync_example :
  update_team_members Sample.crew Sample.stale_teams
  = [mkTeam 1 "Day" "HQ" "Alice" "Alice,Carol"; mkTeam 2 "Night" "Depot" "Bob" "Bob"].
Proof. vm_compute. reflexivity. Qed.

Example weekday_monday : weekday Sample.jan_01 = 0.
Proof. reflexivity. Qed.

Example strftime_leap_day : strftime_ymd (Sample.jan_01 + 59) = "2024-02-29".
Proof. vm_compute. reflexivity. Qed.

Example strftime_year_end : strftime_ymd (Sample.jan_01 + 365) = "2024-12-31".
Proof. vm_compute. reflexivity. Qed.

Example strftime_epoch : strftime_ymd 719163 = "1970-01-01".
Proof. vm_compute. reflexivity. Qed.

Example upcoming_none_without_schedules :
  next_upcoming Sample.midnight [] (24 * 738890 + 9) = None.
Proof. reflexivity. Qed.

Example upcoming_first_weekend :
  next_upcoming Sample.midnight [Sample.night_rota; Sample.day_rota] (24 * 738890 + 9)
  = Some (24 * 738891, "Alice", "Day").
Proof. vm_compute. reflexivity. Qed.

Example upcoming_tie_first_schedule :
  next_upcoming Sample.midnight [Sample.night_rota; Sample.day_rota] (24 * 738892 + 9)
  = Some (24 * 738898, "Bob", "Night").
Proof. vm_compute. reflexivity. Qed.

Example upcoming_none_when_past :
  next_upcoming Sample.midnight [Sample.night_rota; Sample.day_rota] (24 * 738899 + 9)
  = None.
Proof. vm_compute. reflexivity. Qed.

(** * Further properties *)

(** ** Splitting and joining on commas *)

Section Commas.

Lemma comma_free_cons (c : ascii) (s : string) :
  comma_free (String c s) <-> Ascii.eqb c COMMA = false /\ comma_free s.
Proof.
  unfold comma_free. simpl. destruct (Ascii.eqb c COMMA); simpl.
  - split; [discriminate|intros [? _]; discriminate].
  - split; [by split|by intros [_ ?]].
Qed.

Lemma split_comma_free (x : string) :
  comma_free x -> split_comma x = [x].
Proof.
  induction x as [|c x IH]; intros Hx; [reflexivity|].
  apply comma_free_cons in Hx as [Hc Hx]. simpl. rewrite Hc, (IH Hx). reflexivity.
Qed.

Lemma split_comma_piece (x s : string) :
  comma_free x ->
  split_comma (x +:+ String COMMA s) = x :: split_comma s.
Proof.
  induction x as [|c x IH]; intros Hx.
  - reflexivity.
  - apply comma_free_cons in Hx as [Hc Hx].
    change (String c x +:+ String COMMA s) with (String c (x +:+ String COMMA s)).
    cbn [split_comma]. rewrite Hc, (IH Hx). reflexivity.
Qed.

Lemma concat_cons_cons (x y : string) (l : list string) :
  String.concat "," (x :: y :: l) = x +:+ String COMMA (String.concat "," (y :: l)).
Proof. reflexivity. Qed.

Lemma concat_String (c : ascii) (h : string) (t : list string) :
  String.concat "," (String c h :: t) = String c (String.concat "," (h :: t)).
Proof. destruct t; reflexivity. Qed.

Lemma split_comma_concat (names : list string) :
  names <> [] -> Forall comma_free names ->
  split_comma (String.concat "," names) = names.
Proof.
  intros Hne Hfree. induction Hfree as [|x l Hx Hl IH]; [done|].
  destruct l as [|y l]; [by apply split_comma_free|].
  rewrite concat_cons_cons, split_comma_piece by assumption.
  f_equal. by apply IH.
Qed.

End Commas.

(** X1: joining the pieces of a split gives the text back. *)
Theorem join_split (s : string) : join_comma (split_comma s) = s.
Proof.
  unfold join_comma. induction s as [|c s IH]; [reflexivity|].
  simpl. destruct (Ascii.eqb_spec c COMMA) as [->|Hc].
  - destruct (split_comma s) as [|h t] eqn:E.
    + by apply split_comma_nonempty in E.
    + rewrite concat_cons_cons, IH. reflexivity.
  - destruct (split_comma s) as [|h t] eqn:E.
    + by apply split_comma_nonempty in E.
    + by rewrite concat_String, IH.
Qed.

(** X2: splitting the join of a non-empty list of comma-free names gives
    the names back. *)
Theorem split_join (names : list string) :
  names <> [] ->
  Forall comma_free names ->
  split_comma (join_comma names) = names.
Proof.
  intros Hne Hfree. unfold join_comma.
  induction Hfree as [|x l Hx Hl IH]; [done|].
  destruct l as [|y l].
  - simpl. by apply split_comma_free.
  - rewrite concat_cons_cons, split_comma_piece by assumption.
    f_equal. by apply IH.
Qed.

Lemma split_join_witness :
  ["Alice"; "Bob"] <> []
  /\ Forall comma_free ["Alice"; "Bob"]
  /\ split_comma (join_comma ["Alice"; "Bob"]) = ["Alice"; "Bob"].
Proof.
  assert (Hfree : Forall comma_free ["Alice"; "Bob"]) by (repeat constructor).
  split; [discriminate|]. split; [exact Hfree|].
  apply (split_join ["Alice"; "Bob"]); [discriminate|exact Hfree].
Defined.

(** X3: a split has one more piece than the text has commas; the empty
    text splits into one (empty) piece. *)
Theorem split_comma_length (s : string) :
  length (split_comma s) = S (count_commas s).
Proof.
  induction s as [|c s IH]; [reflexivity|].
  simpl. destruct (Ascii.eqb c COMMA); simpl.
  - by rewrite IH.
  - destruct (split_comma s) as [|h t]; [discriminate|]. exact IH.
Qed.

(** ** The staff and team forms *)

Section Forms.

Lemma update_team_members_app (staffs_df : list Staff) (t1 t2 : list Team) :
  update_team_members staffs_df (t1 ++ t2)
  = update_team_members staffs_df t1 ++ update_team_members staffs_df t2.
Proof. by rewrite !update_team_members_fmap, fmap_app. Qed.

Lemma names_in_team_snoc (staffs_df : list Staff) (new_staff : Staff) (team_name : string) :
  names_in_team (staffs_df ++ [new_staff]) team_name
  = names_in_team staffs_df team_name
      ++ (if decide (staff_Team new_staff = team_name) then [staff_Name new_staff] else []).
Proof.
  unfold names_in_team. rewrite filter_app, fmap_app. f_equal.
  rewrite filter_cons, filter_nil. by destruct (decide _).
Qed.

Lemma remove_commas_free (s : string) : comma_free (remove_commas s).
Proof.
  induction s as [|c s IH]; [reflexivity|].
  simpl. destruct (Ascii.eqb c COMMA) eqn:Hc; [exact IH|].
  apply comma_free_cons. by split.
Qed.

Lemma remove_commas_id (s : string) : comma_free s -> remove_commas s = s.
Proof.
  induction s as [|c s IH]; intros Hs; [reflexivity|].
  apply comma_free_cons in Hs as [Hc Hs]. simpl. by rewrite Hc, IH.
Qed.

Lemma sequential_snoc (ids : list Z) :
  sequential ids -> sequential (ids ++ [Z.of_nat (length ids) + 1]).
Proof.
  intros Hseq i id Hi.
  destruct (decide (i < length ids)%nat) as [Hlt|Hge].
  - rewrite lookup_app_l in Hi by assumption. by apply Hseq.
  - rewrite lookup_app_r in Hi by lia.
    destruct (i - length ids)%nat as [|k] eqn:Hk; [|by destruct k].
    injection Hi as <-. assert (i = length ids) as -> by lia. reflexivity.
Qed.

Lemma filter_none (teams_df : list Team) (team : string) :
  Forall (fun t => Team_Name t <> team) teams_df ->
  filter (fun t => Team_Name t = team) teams_df = [].
Proof.
  induction 1 as [|t l Ht Hl IH]; [reflexivity|].
  by rewrite filter_cons_False.
Qed.

End Forms.

(** X4: for a team whose roster is not empty and whose members' names
    hold no comma, the schedule form generates from exactly the names of
    the staff rows carrying the team's name, in staff-table order. *)
Theorem roster_recovered (s : Session) (schedule_name team : string)
    (start_date end_date : date) (row : Team) :
  select_team (teams s) team = inr row ->
  names_in_team (staffs s) team <> [] ->
  Forall comma_free (names_in_team (staffs s) team) ->
  start_date < end_date ->
  exists new_schedule,
    run_create_schedule s schedule_name team start_date end_date
    = (add_schedule (sync_session s) new_schedule,
       st_success ("Schedule '" +:+ schedule_name +:+ "' created successfully!"))
    /\ generate_assignments (names_in_team (staffs s) team) start_date end_date
       = inr (Assignments new_schedule).
Proof.
  intros Hsel Hne Hfree Hlt. unfold run_create_schedule.
  pose proof (select_team_name _ _ _ Hsel) as Hname.
  pose proof (select_team_synced (staffs s) _ _ _ Hsel) as Hsync.
  eexists. split; [apply create_schedule_success; [assumption|exact Hsync]|].
  cbn [Assignments synced_row set_Members Members].
  unfold join_comma. rewrite Hname, split_comma_concat by assumption.
  by apply generate_assignments_round_robin.
Qed.

Lemma roster_recovered_witness :
  select_team (teams Sample.office) "Day" = inr (mkTeam 1 "Day" "HQ" "Alice" "")
  /\ names_in_team (staffs Sample.office) "Day" <> []
  /\ Forall comma_free (names_in_team (staffs Sample.office) "Day")
  /\ Sample.jan_01 < Sample.jan_15
  /\ exists new_schedule,
      run_create_schedule Sample.office "Jan" "Day" Sample.jan_01 Sample.jan_15
      = (add_schedule (sync_session Sample.office) new_schedule,
         st_success ("Schedule '" +:+ "Jan" +:+ "' created successfully!"))
      /\ generate_assignments (names_in_team (staffs Sample.office) "Day")
           Sample.jan_01 Sample.jan_15
         = inr (Assignments new_schedule).
Proof.
  assert (Hfree : Forall comma_free (names_in_team (staffs Sample.office) "Day"))
    by (repeat constructor).
  split; [reflexivity|]. split; [discriminate|]. split; [exact Hfree|].
  split; [reflexivity|].
  apply (roster_recovered Sample.office "Jan" "Day" Sample.jan_01 Sample.jan_15
           (mkTeam 1 "Day" "HQ" "Alice" ""));
    [reflexivity|discriminate|exact Hfree|reflexivity].
Defined.

(** X5: the staff form strips the commas of the phone number and keeps
    it unchanged exactly when it holds none: if no stored phone holds a
    comma, none does after a staff row is added. *)
Theorem add_staff_phone (s : Session) (name phone team : string) :
  Forall (fun row => comma_free (staff_Phone row)) (staffs s) ->
  Forall (fun row => comma_free (staff_Phone row)) (staffs (add_staff s name phone team).1)
  /\ (staff_Phone <$> last (staffs (add_staff s name phone team).1) = Some phone
      <-> comma_free phone).
Proof.
  intros Hall. simpl. split.
  - apply Forall_app. split; [assumption|].
    constructor; [apply remove_commas_free|constructor].
  - rewrite last_snoc. simpl. split.
    + intros [= Heq]. rewrite <- Heq. apply remove_commas_free.
    + intros Hfree. by rewrite remove_commas_id.
Qed.

Lemma add_staff_phone_witness :
  Forall (fun row => comma_free (staff_Phone row)) (staffs Sample.office)
  /\ Forall (fun row => comma_free (staff_Phone row))
       (staffs (add_staff Sample.office "Dan" "5,558" "Night").1)
  /\ (staff_Phone <$> last (staffs (add_staff Sample.office "Dan" "5,558" "Night").1)
      = Some "5,558"
      <-> comma_free "5,558").
Proof.
  assert (Hall : Forall (fun row => comma_free (staff_Phone row)) (staffs Sample.office))
    by (repeat constructor).
  split; [exact Hall|].
  apply (add_staff_phone Sample.office "Dan" "5,558" "Night"). exact Hall.
Defined.

(** X6: whatever the session was, after the staff form every team row
    lists exactly the staff carrying its name. *)
Theorem add_staff_consistent (s : Session) (name phone team : string) :
  consistent (add_staff s name phone team).1.
Proof.
  unfold consistent. simpl. rewrite update_team_members_fmap.
  apply Forall_fmap, Forall_forall. intros t _. reflexivity.
Qed.

(** X7: the staff form appends the new name to the Members of the team
    rows carrying the chosen team name and to no other: each team row
    lists the staff that carried its name before, followed by the new
    name when it is the chosen team. *)
Theorem add_staff_members (s : Session) (name phone team : string) :
  teams (add_staff s name phone team).1
  = (fun t =>
       set_Members
         (join_comma
            (names_in_team (staffs s) (Team_Name t)
               ++ (if decide (team = Team_Name t) then [name] else [])))
         t) <$> teams s.
Proof.
  simpl. rewrite update_team_members_fmap.
  apply list_fmap_ext. intros _ t _.
  unfold synced_row. by rewrite names_in_team_snoc.
Qed.

(** X8: the three forms number a new row with the row count plus one, so
    tables whose IDs are 1, 2, ... in row order stay so. *)
Theorem forms_keep_ids_sequential (s : Session) :
  ids_sequential s ->
  (forall name phone team, ids_sequential (add_staff s name phone team).1)
  /\ (forall team_name location leader,
        ids_sequential (add_team s team_name location leader).1)
  /\ (forall schedule_name team start_date end_date,
        ids_sequential (create_schedule s schedule_name team start_date end_date).1).
Proof.
  intros (Hstaff & Hteam & Hsched). repeat split; intros.
  - simpl. rewrite fmap_app. simpl.
    rewrite <- (length_fmap staff_ID). by apply sequential_snoc.
  - simpl. rewrite update_team_members_fmap, <- list_fmap_compose. exact Hteam.
  - exact Hsched.
  - exact Hstaff.
  - simpl. rewrite fmap_app. simpl.
    rewrite <- (length_fmap team_ID). by apply sequential_snoc.
  - exact Hsched.
  - unfold create_schedule. destruct (_ >=? _); [exact Hstaff|].
    destruct (select_team _ _); [exact Hstaff|].
    destruct (generate_assignments _ _ _); exact Hstaff.
  - unfold create_schedule. destruct (_ >=? _); [exact Hteam|].
    destruct (select_team _ _); [exact Hteam|].
    destruct (generate_assignments _ _ _); exact Hteam.
  - unfold create_schedule. destruct (_ >=? _); [exact Hsched|].
    destruct (select_team _ _); [exact Hsched|].
    destruct (generate_assignments _ _ _); [exact Hsched|].
    simpl. rewrite fmap_app. simpl.
    rewrite <- (length_fmap sched_ID). by apply sequential_snoc.
Qed.

Lemma forms_keep_ids_sequential_witness :
  ids_sequential Sample.office
  /\ (forall name phone team, ids_sequential (add_staff Sample.office name phone team).1)
  /\ (forall team_name location leader,
        ids_sequential (add_team Sample.office team_name location leader).1)
  /\ (forall schedule_name team start_date end_date,
        ids_sequential
          (create_schedule Sample.office schedule_name team start_date end_date).1).
Proof.
  assert (Hseq : ids_sequential Sample.office).
  { repeat split; intros i id Hi;
      repeat (destruct i as [|i]; [injection Hi as <-; reflexivity|]); discriminate Hi. }
  split; [exact Hseq|].
  apply (forms_keep_ids_sequential Sample.office). exact Hseq.
Defined.

(** X9: a team is created with empty Members, and the synchronisation
    of the next run fills it in: the earlier rows are synchronised as
    before, and the new row lists the staff already carrying its name. *)
Theorem add_team_then_sync (s : Session) (team_name location leader : string) :
  teams (sync_session (add_team s team_name location leader).1)
  = update_team_members (staffs s) (teams s)
      ++ [mkTeam (Z.of_nat (length (teams s)) + 1) team_name location leader
            (join_comma (names_in_team (staffs s) team_name))].
Proof.
  simpl. rewrite update_team_members_app. f_equal.
Qed.

(** X10: the team form does not check that the name is new, and the
    schedule form takes the first row with the chosen name: once a name
    is taken, a later team of the same name is never the one selected. *)
Theorem add_team_select (s : Session) (team_name location leader : string) :
  select_team (teams (add_team s team_name location leader).1) team_name
  = match select_team (teams s) team_name with
    | inr row => inr row
    | inl _ =>
        inr (mkTeam (Z.of_nat (length (teams s)) + 1) team_name location leader
               EmptyString)
    end.
Proof.
  unfold select_team. simpl. rewrite filter_app, filter_cons_True by reflexivity.
  by destruct (filter _ (teams s)).
Qed.

(** X11: a submission that passes the date check for a team name that
    no row carries raises an IndexError and leaves the session as it
    was. *)
Theorem create_schedule_unknown_team (s : Session) (schedule_name team : string)
    (start_date end_date : date) :
  start_date < end_date ->
  Forall (fun t => Team_Name t <> team) (teams s) ->
  create_schedule s schedule_name team start_date end_date = (s, raised IndexError).
Proof.
  intros Hlt Hnone. unfold create_schedule, select_team.
  destruct (Z.geb_spec start_date end_date) as [Hge|_]; [lia|].
  by rewrite filter_none.
Qed.

Lemma create_schedule_unknown_team_witness :
  Sample.jan_01 < Sample.jan_15
  /\ Forall (fun t => Team_Name t <> "Late") (teams Sample.office)
  /\ create_schedule Sample.office "Jan" "Late" Sample.jan_01 Sample.jan_15
     = (Sample.office, raised IndexError).
Proof.
  assert (Hnone : Forall (fun t => Team_Name t <> "Late") (teams Sample.office))
    by (repeat constructor; discriminate).
  split; [reflexivity|]. split; [exact Hnone|].
  apply (create_schedule_unknown_team Sample.office "Jan" "Late"
           Sample.jan_01 Sample.jan_15); [reflexivity|exact Hnone].
Defined.

(** X12: the schedule form never divides by zero, whatever the Members
    text of the team: the member list it splits is never empty. *)
Theorem create_schedule_no_zero_division (s : Session) (schedule_name team : string)
    (start_date end_date : date) :
  (create_schedule s schedule_name team start_date end_date).2
  <> raised ZeroDivisionError.
Proof.
  unfold create_schedule. destruct (_ >=? _); [discriminate|].
  unfold select_team. destruct (filter _ _) as [|team_data rest]; [discriminate|].
  rewrite (generate_assignments_round_robin _ _ _ (split_comma_nonempty _)).
  discriminate.
Qed.

(** The handler with its save answers as the handler on the table as
    read, and on success stores the schedule that one appends. *)
Lemma create_schedule_and_save_view (json_dumps : cell -> string)
    (json_loads : string -> cell) (s : StoredSession) (schedule_name team : string)
    (start_date end_date : date) :
  let viewed :=
    mkSession (st_staffs s) (st_teams s) (as_read json_loads <$> st_schedules s) in
  let saved := create_schedule_and_save json_dumps s schedule_name team start_date end_date in
  let plain := create_schedule viewed schedule_name team start_date end_date in
  saved.2 = plain.2
  /\ (st_schedules saved.1 = st_schedules s /\ schedules plain.1 = schedules viewed
      \/ exists new_schedule,
          schedules plain.1 = schedules viewed ++ [new_schedule]
          /\ st_schedules saved.1 = store_schedule json_dumps (st_schedules s) new_schedule).
Proof.
  unfold create_schedule_and_save, create_schedule. simpl.
  destruct (_ >=? _); [by auto|].
  destruct (select_team _ _); [by auto|].
  destruct (generate_assignments _ _ _); [by auto|].
  simpl. split; [reflexivity|]. right. eexists. split; [reflexivity|].
  by rewrite length_fmap.
Qed.

(** X13: the schedule form, with its save, never touches the staff and
    team tables and never removes a schedule row nor changes the ID,
    Name, Team, Team Leader or dates of one: either the schedule table
    is left as it was, or one row is appended and the table is saved,
    which replaces every Assignments cell, old and new, by its JSON
    text. *)
Theorem create_schedule_frame (json_dumps : cell -> string) (s : StoredSession)
    (schedule_name team : string) (start_date end_date : date) :
  let after :=
    (create_schedule_and_save json_dumps s schedule_name team start_date end_date).1 in
  st_staffs after = st_staffs s
  /\ st_teams after = st_teams s
  /\ (st_schedules after = st_schedules s
      \/ exists new_row,
          st_schedules after = save_data json_dumps (st_schedules s ++ [new_row]))
  /\ set_Assignments (cell_list [])
       <$> take (length (st_schedules s)) (st_schedules after)
     = set_Assignments (cell_list []) <$> st_schedules s
  /\ Forall2
       (fun row row' =>
          stored_Assignments row' = stored_Assignments row
          \/ stored_Assignments row' = cell_str (json_dumps (stored_Assignments row)))
       (st_schedules s) (take (length (st_schedules s)) (st_schedules after)).
Proof.
  assert (Hkeep :
    set_Assignments (cell_list []) <$> take (length (st_schedules s)) (st_schedules s)
    = set_Assignments (cell_list []) <$> st_schedules s
    /\ Forall2
         (fun row row' =>
            stored_Assignments row' = stored_Assignments row
            \/ stored_Assignments row' = cell_str (json_dumps (stored_Assignments row)))
         (st_schedules s) (take (length (st_schedules s)) (st_schedules s))).
  { rewrite firstn_all. split; [reflexivity|].
    apply Forall_Forall2_diag, Forall_forall. intros row _. by left. }
  unfold create_schedule_and_save. destruct (_ >=? _); [by auto|].
  destruct (select_team _ _); [by auto|].
  destruct (generate_assignments _ _ _); [by auto|].
  cbn [fst st_staffs st_teams st_schedules]. unfold store_schedule.
  split; [reflexivity|]. split; [reflexivity|]. split; [right; by eexists|].
  assert (Htake :
    take (length (st_schedules s))
      (save_data json_dumps (st_schedules s ++ [fresh_row
         (mkSchedule (Z.of_nat (length (st_schedules s)) + 1) schedule_name team
            (Leader t) (strftime_ymd start_date) (strftime_ymd end_date) l)]))
    = save_data json_dumps (st_schedules s)).
  { unfold save_data. rewrite fmap_app.
    apply take_app_length'. by rewrite length_fmap. }
  rewrite Htake. unfold save_data. split.
  - rewrite <- list_fmap_compose. apply list_fmap_ext. intros _ row _. reflexivity.
  - apply Forall2_fmap_r, Forall_Forall2_diag, Forall_forall.
    intros row _. by right.
Qed.

(** ** Weekends of a range *)

Section Ranges.

Lemma length_date_range (start end_ : date) :
  Z.of_nat (length (date_range_W_SAT start end_))
  = if rollforward_sat start >? end_ then 0
    else (end_ - rollforward_sat start) / 7 + 1.
Proof.
  unfold date_range_W_SAT.
  destruct (Z.gtb_spec (rollforward_sat start) end_) as [Hgt|Hle]; [reflexivity|].
  rewrite length_fmap, length_seq.
  rewrite Z2Nat.id; [reflexivity|]. Z.div_mod_to_equations. lia.
Qed.

Lemma days_between_snoc (start end_ : date) :
  start <= end_ ->
  days_between start end_ = days_between start (end_ - 1) ++ [end_].
Proof.
  intros Hle. unfold days_between.
  replace (Z.to_nat (end_ - start + 1)) with (S (Z.to_nat (end_ - 1 - start + 1))) by lia.
  rewrite seq_S, fmap_app. simpl. do 2 f_equal. lia.
Qed.

Lemma saturdays_in_snoc (start end_ : date) :
  start <= end_ -> weekday end_ = SATURDAY ->
  saturdays_in start end_ = saturdays_in start (end_ - 1) ++ [end_].
Proof.
  intros Hle Hsat. unfold saturdays_in.
  rewrite days_between_snoc, filter_app by assumption.
  by rewrite (filter_cons_True _ end_ []).
Qed.

Lemma saturdays_in_nil (start end_ : date) :
  (forall d, start <= d <= end_ -> weekday d <> SATURDAY) ->
  saturdays_in start end_ = [].
Proof.
  intros Hnone. destruct (saturdays_in start end_) as [|d l] eqn:E; [reflexivity|].
  assert (Hd : d ∈ saturdays_in start end_) by (rewrite E; left).
  apply elem_of_saturdays_in in Hd as [Hrange Hsat]. by apply Hnone in Hrange.
Qed.

Lemma round_robin_from_app (members : list string) (l1 l2 : list date) (i : nat) :
  round_robin_from members i (l1 ++ l2)
  = round_robin_from members i l1 ++ round_robin_from members (i + length l1) l2.
Proof.
  revert i. induction l1 as [|d l1 IH]; intros i; simpl.
  - by rewrite Nat.add_0_r.
  - rewrite IH. by replace (S i + length l1)%nat with (i + S (length l1))%nat by lia.
Qed.

End Ranges.

(** X14: a range of [D = end - start + 1] days holds at least [D / 7]
    (rounded down) and at most [D / 7] (rounded up) weekend dates; in
    particular any range of seven days or more holds one. *)
Theorem weekend_count_bounds (start_date end_date : date) :
  start_date <= end_date ->
  (end_date - start_date + 1) / 7
  <= Z.of_nat (length (date_range_W_SAT start_date end_date))
  <= (end_date - start_date + 1 + 6) / 7.
Proof.
  intros Hle. rewrite length_date_range.
  destruct (rollforward_sat_spec start_date) as [Hr _].
  destruct (Z.gtb_spec (rollforward_sat start_date) end_date);
    Z.div_mod_to_equations; lia.
Qed.

Lemma weekend_count_bounds_witness :
  Sample.jan_01 <= Sample.jan_15
  /\ (Sample.jan_15 - Sample.jan_01 + 1) / 7
     <= Z.of_nat (length (date_range_W_SAT Sample.jan_01 Sample.jan_15))
     <= (Sample.jan_15 - Sample.jan_01 + 1 + 6) / 7.
Proof.
  split; [discriminate|].
  apply (weekend_count_bounds Sample.jan_01 Sample.jan_15). discriminate.
Defined.

(** X15: a range without a Saturday is not an error: the schedule is
    added, with no assignment, and success is reported. *)
Theorem create_schedule_no_weekend (s : Session) (schedule_name team : string)
    (start_date end_date : date) (row : Team) :
  start_date < end_date ->
  (forall d, start_date <= d <= end_date -> weekday d <> SATURDAY) ->
  select_team (teams s) team = inr row ->
  create_schedule s schedule_name team start_date end_date
  = (add_schedule s
       (mkSchedule (Z.of_nat (length (schedules s)) + 1) schedule_name team
          (Leader row) (strftime_ymd start_date) (strftime_ymd end_date) []),
     st_success ("Schedule '" +:+ schedule_name +:+ "' created successfully!")).
Proof.
  intros Hlt Hnone Hsel.
  rewrite (create_schedule_success _ _ _ _ _ _ Hlt Hsel).
  by rewrite saturdays_in_nil.
Qed.

Lemma create_schedule_no_weekend_witness :
  738892 < 738897
  /\ (forall d, 738892 <= d <= 738897 -> weekday d <> SATURDAY)
  /\ select_team (teams Sample.lonely) "Night" = inr (mkTeam 1 "Night" "Depot" "" "")
  /\ create_schedule Sample.lonely "Week" "Night" 738892 738897
     = (add_schedule Sample.lonely
          (mkSchedule (Z.of_nat (length (schedules Sample.lonely)) + 1) "Week" "Night"
             (Leader (mkTeam 1 "Night" "Depot" "" ""))
             (strftime_ymd 738892) (strftime_ymd 738897) []),
        st_success ("Schedule '" +:+ "Week" +:+ "' created successfully!")).
Proof.
  assert (Hnone : forall d, 738892 <= d <= 738897 -> weekday d <> SATURDAY).
  { intros d Hd. unfold weekday, SATURDAY. Z.div_mod_to_equations. lia. }
  split; [reflexivity|]. split; [exact Hnone|]. split; [reflexivity|].
  apply (create_schedule_no_weekend Sample.lonely "Week" "Night" 738892 738897
           (mkTeam 1 "Night" "Depot" "" "")); [reflexivity|exact Hnone|reflexivity].
Defined.

(** X16: when the end date is a Saturday, the last assignment is the
    Sunday after it, one day past the end date. *)
Theorem sunday_after_end (members : list string) (start_date end_date : date) :
  members <> [] ->
  start_date <= end_date ->
  weekday end_date = SATURDAY ->
  exists assignments member,
    generate_assignments members start_date end_date = inr assignments
    /\ member ∈ members
    /\ last assignments
       = Some (mkAssignment member (strftime_ymd (end_date + 1)) "Sunday").
Proof.
  intros Hne Hle Hsat.
  rewrite (generate_assignments_round_robin _ _ _ Hne).
  rewrite saturdays_in_snoc, round_robin_from_app by assumption.
  set (i := Nat.add 0 (length (saturdays_in start_date (end_date - 1)))).
  destruct (lookup_lt_is_Some_2 members (i mod length members)%nat) as [m Hm].
  { apply Nat.mod_upper_bound. by destruct members. }
  eexists _, m. split; [reflexivity|].
  split; [by eapply list_elem_of_lookup_2|].
  rewrite last_app. cbn [round_robin_from]. rewrite Hm. reflexivity.
Qed.

Lemma sunday_after_end_witness :
  ["Alice"; "Bob"] <> []
  /\ Sample.jan_01 <= 738898
  /\ weekday 738898 = SATURDAY
  /\ exists assignments member,
      generate_assignments ["Alice"; "Bob"] Sample.jan_01 738898 = inr assignments
      /\ member ∈ ["Alice"; "Bob"]
      /\ last assignments
         = Some (mkAssignment member (strftime_ymd (738898 + 1)) "Sunday").
Proof.
  split; [discriminate|]. split; [discriminate|]. split; [reflexivity|].
  apply (sunday_after_end ["Alice"; "Bob"] Sample.jan_01 738898);
    [discriminate|discriminate|reflexivity].
Defined.

(** ** Rotation among distinct members *)

Section Rotation.

Lemma succ_mod_neq (i k : nat) : (2 <= k)%nat -> (i mod k)%nat <> (S i mod k)%nat.
Proof.
  intros Hk Heq.
  pose proof (Nat.div_mod_eq i k) as H1.
  pose proof (Nat.div_mod_eq (S i) k) as H2.
  pose proof (Nat.mod_upper_bound i k ltac:(lia)) as H3.
  rewrite <- Heq in H2.
  assert (Hq : (k * (S i / k) = k * (i / k) + 1)%nat) by lia.
  assert (Hlt : (i / k < S i / k)%nat) by nia.
  nia.
Qed.

Lemma lookup_round_robin_from_inv (members : list string) (dates : list date)
    (i k : nat) (a : Assignment) :
  members <> [] ->
  round_robin_from members i dates !! (2 * k)%nat = Some a ->
  members !! ((i + k) mod length members)%nat = Some (Team_Member a)
  /\ Day a = "Saturday".
Proof.
  intros Hne Ha.
  assert (Hk : (k < length dates)%nat).
  { apply lookup_lt_Some in Ha. rewrite length_round_robin_from in Ha. lia. }
  destruct (lookup_lt_is_Some_2 dates k Hk) as [saturday Hs].
  destruct (lookup_round_robin_from members dates i k saturday Hs) as [Hsat _].
  rewrite Hsat in Ha. injection Ha as <-.
  destruct (lookup_lt_is_Some_2 members ((i + k) mod length members)%nat) as [m Hm].
  { apply Nat.mod_upper_bound. by destruct members. }
  rewrite Hm. by split.
Qed.

End Rotation.

(** X17: with at least two members of distinct names, the same member
    is never given two weekends in a row. *)
Theorem no_consecutive_weekends (members : list string) (start_date end_date : date) :
  NoDup members ->
  (2 <= length members)%nat ->
  exists assignments,
    generate_assignments members start_date end_date = inr assignments
    /\ forall (i : nat) (a b : Assignment),
        assignments !! (2 * i)%nat = Some a ->
        assignments !! (2 * (i + 1))%nat = Some b ->
        Team_Member a <> Team_Member b.
Proof.
  intros Hnodup Hlen.
  assert (Hne : members <> []) by (destruct members; [simpl in Hlen; lia|discriminate]).
  eexists. split; [by apply generate_assignments_round_robin|].
  intros i a b Ha Hb Hsame.
  apply lookup_round_robin_from_inv in Ha as [Ha _]; [|assumption].
  apply lookup_round_robin_from_inv in Hb as [Hb _]; [|assumption].
  rewrite <- Hsame in Hb. simpl in Ha, Hb.
  pose proof (NoDup_lookup _ _ _ _ Hnodup Ha Hb) as Heq.
  replace (i + 1)%nat with (S i) in Heq by lia.
  by apply (succ_mod_neq i (length members)).
Qed.

Lemma no_consecutive_weekends_witness :
  NoDup ["Alice"; "Bob"]
  /\ (2 <= length ["Alice"; "Bob"])%nat
  /\ exists assignments,
      generate_assignments ["Alice"; "Bob"] Sample.jan_01 Sample.jan_15 = inr assignments
      /\ forall (i : nat) (a b : Assignment),
          assignments !! (2 * i)%nat = Some a ->
          assignments !! (2 * (i + 1))%nat = Some b ->
          Team_Member a <> Team_Member b.
Proof.
  assert (Hnodup : NoDup ["Alice"; "Bob"]).
  { apply NoDup_cons. split; [|apply NoDup_singleton].
    intros Hin. apply list_elem_of_singleton in Hin. discriminate Hin. }
  split; [exact Hnodup|]. split; [simpl; lia|].
  apply (no_consecutive_weekends ["Alice"; "Bob"] Sample.jan_01 Sample.jan_15);
    [exact Hnodup|simpl; lia].
Defined.

(** ** Shares of the rotation *)

Section Shares.

Lemma below_step (k j i : nat) :
  (j < k)%nat ->
  below k j (S i) = (below k j i + (if decide ((i mod k)%nat = j) then 1 else 0))%nat.
Proof.
  intros Hj. unfold below.
  pose proof (Nat.div_mod_eq i k) as Hi.
  pose proof (Nat.mod_upper_bound i k ltac:(lia)) as Hr.
  set (q := (i / k)%nat) in *. set (r := (i mod k)%nat) in *.
  destruct (decide (r = j)) as [Heq|Hne].
  - rewrite <- (Nat.div_unique (i + (k - 1 - j)) k q (k - 1)) by lia.
    rewrite <- (Nat.div_unique (S i + (k - 1 - j)) k (S q) 0) by lia.
    lia.
  - destruct (decide (r < j)%nat) as [Hlt|Hge].
    + rewrite <- (Nat.div_unique (i + (k - 1 - j)) k q (r + (k - 1 - j))) by lia.
      rewrite <- (Nat.div_unique (S i + (k - 1 - j)) k q (S r + (k - 1 - j))) by lia.
      lia.
    + rewrite <- (Nat.div_unique (i + (k - 1 - j)) k (S q) (r - 1 - j)) by lia.
      rewrite <- (Nat.div_unique (S i + (k - 1 - j)) k (S q) (r - j)) by lia.
      lia.
Qed.

Lemma below_closed (k j n : nat) :
  (j < k)%nat ->
  (below k j n - below k j 0 = n / k + (if decide (j < n mod k) then 1 else 0))%nat.
Proof.
  intros Hj. unfold below.
  pose proof (Nat.div_mod_eq n k) as Hn.
  pose proof (Nat.mod_upper_bound n k ltac:(lia)) as Hr.
  set (q := (n / k)%nat) in *. set (r := (n mod k)%nat) in *.
  rewrite <- (Nat.div_unique (0 + (k - 1 - j)) k 0 (k - 1 - j)) by lia.
  destruct (decide (j < r)%nat) as [Hlt|Hge].
  - rewrite <- (Nat.div_unique (n + (k - 1 - j)) k (S q) (r - 1 - j)) by lia. lia.
  - rewrite <- (Nat.div_unique (n + (k - 1 - j)) k q (r + (k - 1 - j))) by lia. lia.
Qed.

Lemma weekends_of_pair (m member : string) (saturday : date) (rest : list Assignment) :
  weekends_of m (weekend_pair member saturday ++ rest)
  = ((if decide (member = m) then 1 else 0) + weekends_of m rest)%nat.
Proof.
  unfold weekends_of, weekend_pair. simpl.
  rewrite !filter_cons. simpl.
  destruct (decide (member = m)) as [->|Hne].
  - destruct (decide (m = m /\ "Saturday" = "Saturday")) as [_|Hn]; [|by destruct Hn].
    destruct (decide (m = m /\ "Sunday" = "Saturday")) as [[_ Hd]|_]; [discriminate|].
    reflexivity.
  - destruct (decide (member = m /\ "Saturday" = "Saturday")) as [[? _]|_]; [done|].
    destruct (decide (member = m /\ "Sunday" = "Saturday")) as [[? _]|_]; [done|].
    reflexivity.
Qed.

Lemma weekends_of_round_robin_from (members : list string) (j : nat) (m : string)
    (dates : list date) :
  NoDup members -> members !! j = Some m ->
  forall i : nat,
    (weekends_of m (round_robin_from members i dates) + below (length members) j i
     = below (length members) j (i + length dates))%nat.
Proof.
  intros Hnodup Hj.
  pose proof (lookup_lt_Some _ _ _ Hj) as Hlt.
  induction dates as [|d rest IH]; intros i.
  - simpl. by rewrite Nat.add_0_r.
  - cbn [round_robin_from length].
    destruct (lookup_lt_is_Some_2 members (i mod length members)%nat) as [m' Hm'].
    { apply Nat.mod_upper_bound. lia. }
    rewrite Hm'. cbn [default from_option id]. rewrite weekends_of_pair.
    specialize (IH (S i)). rewrite below_step in IH by assumption.
    replace (i + S (length rest))%nat with (S i + length rest)%nat by lia.
    rewrite <- IH.
    assert (Hiff : (if decide (m' = m) then 1 else 0)%nat
                   = (if decide ((i mod length members)%nat = j) then 1 else 0)%nat).
    { destruct (decide (m' = m)) as [->|Hne]; destruct (decide (_ = j)) as [Hi|Hi];
        try reflexivity.
      - exfalso. apply Hi. by eapply NoDup_lookup.
      - exfalso. apply Hne. rewrite Hi in Hm'. congruence. }
    rewrite Hiff. lia.
Qed.

End Shares.

(** X18: with distinct names the rotation is fair: over [n] weekends and
    [k] members, the member at position [j] (from 0) gets [n / k]
    weekends, and one more when [j < n mod k]. *)
Theorem round_robin_fair (members : list string) (start_date end_date : date)
    (j : nat) (member : string) :
  NoDup members ->
  members !! j = Some member ->
  exists assignments,
    generate_assignments members start_date end_date = inr assignments
    /\ weekends_of member assignments
       = (length (saturdays_in start_date end_date) / length members
          + (if decide (j < length (saturdays_in start_date end_date) mod length members)
             then 1 else 0))%nat.
Proof.
  intros Hnodup Hj.
  pose proof (lookup_lt_Some _ _ _ Hj) as Hlt.
  assert (Hne : members <> []) by (destruct members; [simpl in Hlt; lia|discriminate]).
  eexists. split; [by apply generate_assignments_round_robin|].
  pose proof (weekends_of_round_robin_from members j member
                (saturdays_in start_date end_date) Hnodup Hj 0%nat) as Hcount.
  rewrite <- (below_closed (length members) j _ Hlt).
  simpl in Hcount. lia.
Qed.

Lemma round_robin_fair_witness :
  NoDup ["Alice"; "Bob"]
  /\ ["Alice"; "Bob"] !! 1%nat = Some "Bob"
  /\ exists assignments,
      generate_assignments ["Alice"; "Bob"] Sample.jan_01 Sample.jan_15 = inr assignments
      /\ weekends_of "Bob" assignments
         = (length (saturdays_in Sample.jan_01 Sample.jan_15) / length ["Alice"; "Bob"]
            + (if decide (1 < length (saturdays_in Sample.jan_01 Sample.jan_15)
                              mod length ["Alice"; "Bob"])
               then 1 else 0))%nat.
Proof.
  assert (Hnodup : NoDup ["Alice"; "Bob"]).
  { apply NoDup_cons. split; [|apply NoDup_singleton].
    intros Hin. apply list_elem_of_singleton in Hin. discriminate Hin. }
  split; [exact Hnodup|]. split; [reflexivity|].
  apply (round_robin_fair ["Alice"; "Bob"] Sample.jan_01 Sample.jan_15 1 "Bob");
    [exact Hnodup|reflexivity].
Defined.

(** ** The stored schedule table *)

Section Stored.

Variable json_dumps : cell -> string.
Variable json_loads : string -> cell.
Variable to_datetime : string -> Z.

Lemma as_read_fresh (new_schedule : Schedule) :
  as_read json_loads (fresh_row new_schedule) = new_schedule.
Proof. by destruct new_schedule. Qed.

Lemma scan_schedules_skip (today : Z) (hidden rows : list Schedule) (acc : list upcoming) :
  Forall (fun schedule => Assignments schedule = []) hidden ->
  scan_schedules to_datetime today (hidden ++ rows) acc
  = scan_schedules to_datetime today rows acc.
Proof.
  intros Hhidden. revert acc.
  induction Hhidden as [|schedule hidden Hs _ IH]; intros acc; [reflexivity|].
  simpl. by rewrite Hs, IH.
Qed.

Lemma next_upcoming_skip (today : Z) (hidden : list Schedule) (schedule : Schedule) :
  Forall (fun schedule => Assignments schedule = []) hidden ->
  next_upcoming to_datetime (hidden ++ [schedule]) today
  = next_upcoming to_datetime [schedule] today.
Proof.
  intros Hhidden. unfold next_upcoming.
  rewrite scan_schedules_skip by assumption.
  by destruct hidden.
Qed.

Lemma saved_text_unreadable (df : list StoredSchedule) :
  Forall
    (fun row =>
       exists text,
         stored_Assignments row = cell_str text
         /\ json_loads (json_dumps (cell_str text)) = cell_str text) df ->
  Forall (fun schedule => Assignments schedule = [])
    (as_read json_loads <$> save_data json_dumps df).
Proof.
  intros Hdf. unfold save_data. rewrite <- list_fmap_compose.
  apply Forall_fmap. eapply Forall_impl; [exact Hdf|].
  intros row (text & Hcell & Hround). simpl.
  unfold read_cell. simpl. by rewrite Hcell, Hround.
Qed.

End Stored.

(** X19: saving a table whose Assignments cells are lists turns them to
    text in the session, and the pages still read the same assignments
    from it, by parsing the text back. *)
Theorem first_save_readable (json_dumps : cell -> string) (json_loads : string -> cell)
    (df : list StoredSchedule) :
  Forall
    (fun row =>
       exists items,
         stored_Assignments row = cell_list items
         /\ json_loads (json_dumps (cell_list items)) = cell_list items) df ->
  Forall (fun row => exists text, stored_Assignments row = cell_str text)
    (save_data json_dumps df)
  /\ as_read json_loads <$> save_data json_dumps df = as_read json_loads <$> df.
Proof.
  intros Hdf. split.
  - unfold save_data. apply Forall_fmap, Forall_forall. intros row _. simpl. by eexists.
  - unfold save_data. rewrite <- list_fmap_compose.
    apply Forall_fmap_ext_1. eapply Forall_impl; [exact Hdf|].
    intros row (items & Hcell & Hround). destruct row as [? ? ? ? ? ? c].
    simpl in *. subst c. unfold as_read, read_cell. simpl. by rewrite Hround.
Qed.

Lemma first_save_readable_witness :
  Forall
    (fun row =>
       exists items,
         stored_Assignments row = cell_list items
         /\ Json.loads (Json.dumps (cell_list items)) = cell_list items)
    [fresh_row Sample.day_rota]
  /\ Forall (fun row => exists text, stored_Assignments row = cell_str text)
       (save_data Json.dumps [fresh_row Sample.day_rota])
  /\ as_read Json.loads <$> save_data Json.dumps [fresh_row Sample.day_rota]
     = as_read Json.loads <$> [fresh_row Sample.day_rota].
Proof.
  assert (Hdf :
    Forall
      (fun row =>
         exists items,
           stored_Assignments row = cell_list items
           /\ Json.loads (Json.dumps (cell_list items)) = cell_list items)
      [fresh_row Sample.day_rota]).
  { constructor; [|constructor]. eexists. split; reflexivity. }
  split; [exact Hdf|].
  apply (first_save_readable Json.dumps Json.loads [fresh_row Sample.day_rota]).
  exact Hdf.
Defined.

(** X20: saving again a table whose Assignments cells are already text
    encodes the text once more; parsing it back gives a text, not a
    list, and the pages read no assignment from such a row. *)
Theorem second_save_unreadable (json_dumps : cell -> string)
    (json_loads : string -> cell) (df : list StoredSchedule) :
  Forall
    (fun row =>
       exists text,
         stored_Assignments row = cell_str text
         /\ json_loads (json_dumps (cell_str text)) = cell_str text) df ->
  Forall (fun schedule => Assignments schedule = [])
    (as_read json_loads <$> save_data json_dumps df).
Proof.
  intros Hdf. unfold save_data. rewrite <- list_fmap_compose.
  apply Forall_fmap, Forall_forall. intros row Hrow.
  rewrite Forall_forall in Hdf. destruct (Hdf row Hrow) as (text & Hcell & Hround).
  simpl. unfold read_cell. simpl. by rewrite Hcell, Hround.
Qed.

Lemma second_save_unreadable_witness :
  Forall
    (fun row =>
       exists text,
         stored_Assignments row = cell_str text
         /\ Json.loads (Json.dumps (cell_str text)) = cell_str text)
    (save_data Json.dumps [fresh_row Sample.day_rota])
  /\ Forall (fun schedule => Assignments schedule = [])
       (as_read Json.loads
          <$> save_data Json.dumps (save_data Json.dumps [fresh_row Sample.day_rota])).
Proof.
  assert (Hdf :
    Forall
      (fun row =>
         exists text,
           stored_Assignments row = cell_str text
           /\ Json.loads (Json.dumps (cell_str text)) = cell_str text)
      (save_data Json.dumps [fresh_row Sample.day_rota])).
  { constructor; [|constructor]. eexists. split; reflexivity. }
  split; [exact Hdf|].
  apply (second_save_unreadable Json.dumps Json.loads
           (save_data Json.dumps [fresh_row Sample.day_rota])).
  exact Hdf.
Defined.

(** X21: when a schedule is created in a session whose schedule table
    was saved before (its cells are text), the dashboard lookup answers
    from the new schedule alone: the earlier schedules no longer count. *)
Theorem lookup_after_second_creation (json_dumps : cell -> string)
    (json_loads : string -> cell) (to_datetime : string -> Z)
    (df : list StoredSchedule) (new_schedule : Schedule) (today : Z) :
  Forall
    (fun row =>
       exists text,
         stored_Assignments row = cell_str text
         /\ json_loads (json_dumps (cell_str text)) = cell_str text) df ->
  json_loads (json_dumps (cell_list (Assignments new_schedule)))
  = cell_list (Assignments new_schedule) ->
  stored_next_upcoming json_loads to_datetime
    (store_schedule json_dumps df new_schedule) today
  = next_upcoming to_datetime [new_schedule] today.
Proof.
  intros Hdf Hnew. unfold stored_next_upcoming, store_schedule.
  assert (Happ : save_data json_dumps (df ++ [fresh_row new_schedule])
                 = save_data json_dumps df ++ save_data json_dumps [fresh_row new_schedule])
    by (unfold save_data; apply fmap_app).
  rewrite Happ, fmap_app.
  assert (Hlast : as_read json_loads <$> save_data json_dumps [fresh_row new_schedule]
                  = [new_schedule]).
  { destruct new_schedule. simpl in *. unfold as_read, read_cell. simpl.
    by rewrite Hnew. }
  rewrite Hlast. apply next_upcoming_skip. by apply saved_text_unreadable.
Qed.

Lemma lookup_after_second_creation_witness :
  Forall
    (fun row =>
       exists text,
         stored_Assignments row = cell_str text
         /\ Json.loads (Json.dumps (cell_str text)) = cell_str text)
    (store_schedule Json.dumps [] Sample.day_rota)
  /\ Json.loads (Json.dumps (cell_list (Assignments Sample.night_rota)))
     = cell_list (Assignments Sample.night_rota)
  /\ stored_next_upcoming Json.loads Sample.midnight
       (store_schedule Json.dumps (store_schedule Json.dumps [] Sample.day_rota)
          Sample.night_rota)
       (24 * 738890 + 9)
     = next_upcoming Sample.midnight [Sample.night_rota] (24 * 738890 + 9).
Proof.
  assert (Hdf :
    Forall
      (fun row =>
         exists text,
           stored_Assignments row = cell_str text
           /\ Json.loads (Json.dumps (cell_str text)) = cell_str text)
      (store_schedule Json.dumps [] Sample.day_rota)).
  { constructor; [|constructor]. eexists. split; reflexivity. }
  split; [exact Hdf|]. split; [reflexivity|].
  apply (lookup_after_second_creation Json.dumps Json.loads Sample.midnight
           (store_schedule Json.dumps [] Sample.day_rota) Sample.night_rota
           (24 * 738890 + 9)); [exact Hdf|reflexivity].
Defined.

Example json_text_of_a_list :
  Json.dumps (cell_list [mkAssignment "Bob" "2024-01-13" "Saturday"])
  = "[{" +:+ Json.quoted "Team Member" +:+ ": " +:+ Json.quoted "Bob" +:+ ", "
      +:+ Json.quoted "Weekend Date" +:+ ": " +:+ Json.quoted "2024-01-13" +:+ ", "
      +:+ Json.quoted "Day" +:+ ": " +:+ Json.quoted "Saturday" +:+ "}]".
Proof. reflexivity. Qed.

Example lookup_loses_first_schedule :
  next_upcoming Sample.midnight [Sample.day_rota; Sample.night_rota] (24 * 738890 + 9)
  = Some (24 * 738891, "Alice", "Day")
  /\ stored_next_upcoming Json.loads Sample.midnight
       (store_schedule Json.dumps (store_schedule Json.dumps [] Sample.day_rota)
          Sample.night_rota)
       (24 * 738890 + 9)
     = Some (24 * 738898, "Bob", "Night").
Proof. split; vm_compute; reflexivity. Qed.

(** ** The lookup as time passes *)

Section LookupOrder.

Variable to_datetime : string -> Z.

Lemma min_by_key_least (first : upcoming) (rest : list upcoming) (y : upcoming) :
  y ∈ first :: rest -> key (min_by_key first rest) <= key y.
Proof.
  intros Hy. destruct (min_by_key_split rest first) as (pre & post & Heq & Hpre & Hpost).
  rewrite Heq in Hy. apply elem_of_app in Hy as [Hy|Hy].
  - apply Hpre in Hy. lia.
  - apply elem_of_cons in Hy as [->|Hy]; [lia|]. by apply Hpost.
Qed.

Lemma next_upcoming_scan (schedules_df : list Schedule) (today : Z) :
  next_upcoming to_datetime schedules_df today
  = match filter (fun x => today < key x) (all_assignments to_datetime schedules_df) with
    | [] => None
    | first :: rest => Some (min_by_key first rest)
    end.
Proof.
  unfold next_upcoming. rewrite scan_schedules_filter, app_nil_l.
  by destruct schedules_df.
Qed.

End LookupOrder.

(** X22: as time passes the answer of the lookup never moves back: if
    it answers a date at a later moment, then at any earlier moment it
    answers a date no later than that one. *)
Theorem next_upcoming_monotone (to_datetime : string -> Z)
    (schedules_df : list Schedule) (earlier later : Z) (y : upcoming) :
  earlier <= later ->
  next_upcoming to_datetime schedules_df later = Some y ->
  exists x,
    next_upcoming to_datetime schedules_df earlier = Some x
    /\ earlier < key x <= key y.
Proof.
  intros Hle Hlater. rewrite next_upcoming_scan in Hlater |- *.
  destruct (filter (fun x => later < key x) _) as [|f2 r2] eqn:E2; [discriminate|].
  injection Hlater as <-.
  assert (Hy : min_by_key f2 r2 ∈ filter (fun x => later < key x)
                 (all_assignments to_datetime schedules_df)).
  { rewrite E2. destruct (min_by_key_split r2 f2) as (pre & post & Heq & _).
    rewrite Heq. apply elem_of_app. right. left. }
  apply list_elem_of_filter in Hy as [Hkey Hin].
  assert (Hy1 : min_by_key f2 r2 ∈ filter (fun x => earlier < key x)
                  (all_assignments to_datetime schedules_df)).
  { apply list_elem_of_filter. split; [lia|assumption]. }
  destruct (filter (fun x => earlier < key x) _) as [|f1 r1] eqn:E1.
  - inversion Hy1.
  - eexists. split; [reflexivity|]. split.
    + assert (Hx : min_by_key f1 r1 ∈ filter (fun x => earlier < key x)
                     (all_assignments to_datetime schedules_df)).
      { rewrite E1. destruct (min_by_key_split r1 f1) as (pre & post & Heq & _).
        rewrite Heq. apply elem_of_app. right. left. }
      by apply list_elem_of_filter in Hx as [? _].
    + by apply min_by_key_least.
Qed.

Lemma next_upcoming_monotone_witness :
  24 * 738890 + 9 <= 24 * 738892 + 9
  /\ next_upcoming Sample.midnight [Sample.night_rota; Sample.day_rota] (24 * 738892 + 9)
     = Some (24 * 738898, "Bob", "Night")
  /\ exists x,
      next_upcoming Sample.midnight [Sample.night_rota; Sample.day_rota] (24 * 738890 + 9)
      = Some x
      /\ 24 * 738890 + 9 < key x <= key (24 * 738898, "Bob", "Night").
Proof.
  split; [discriminate|]. split; [reflexivity|].
  apply (next_upcoming_monotone Sample.midnight [Sample.night_rota; Sample.day_rota]
           (24 * 738890 + 9) (24 * 738892 + 9) (24 * 738898, "Bob", "Night"));
    [discriminate|reflexivity].
Defined.
